(** * The quality-control chat loop of [app.py]

    A shallow embedding of [PersonalChatbot] (src/app.py): prompt
    construction, the history formatter, the generator and evaluator
    wrappers around the two model endpoints, and the generate / evaluate /
    regenerate turn function [chat].

    Modelling choices.
    - A Python [str] is modelled by its UTF-8 encoding: a [string] is the
      sequence of its bytes, so U+00A0 is the two bytes 194 160 and a
      character below U+0080 is one byte.  Concatenation, [join],
      [startswith] and [in] on the bytes are the Python operations on the
      text.  [strip] knows every white-space character of Unicode.  [lower]
      and [title] change the letters A..Z and a..z only; they are the
      Python methods on text whose letters are all ASCII, and the test for
      the keyword [patent] that uses [lower] is the Python test on every
      text, since no other character lower-cases to one of its letters.
    - A value that is a [str] or [None] is an [option string].
    - A chat message (a Python dict with string keys) is a
      [gmap string string].
    - The two remote endpoints are parameters of the development.  Each maps
      a request and the current state of the outside world to an outcome and
      a new state of the world, so that two identical requests may be
      answered differently.  Every request sent is appended to a call log.
    - Python exceptions are an explicit [Raise] outcome; [try]/[except
      Exception] is [try_except].  Logging has no influence on any result
      and is left out. *)

From Stdlib Require Import Ascii String List Bool Arith QArith Lia.
From stdpp Require Import base list strings gmap.
Import ListNotations.

(** ** Python string primitives *)

Module PyStr.

Definition is_upper (c : ascii) : bool :=
  let n := nat_of_ascii c in (65 <=? n) && (n <=? 90).

Definition is_lower (c : ascii) : bool :=
  let n := nat_of_ascii c in (97 <=? n) && (n <=? 122).

Definition is_cased (c : ascii) : bool := is_upper c || is_lower c.

Definition to_lower (c : ascii) : ascii :=
  if is_upper c then ascii_of_nat (nat_of_ascii c + 32) else c.

Definition to_upper (c : ascii) : ascii :=
  if is_lower c then ascii_of_nat (nat_of_ascii c - 32) else c.

(** [str.isspace] for a character below U+0080, which is one byte: tab,
    line feed, vertical tab, form feed, carriage return, the four
    separators U+001C..U+001F and space. *)
Definition is_space (c : ascii) : bool :=
  match c with
  | "009" | "010" | "011" | "012" | "013"
  | "028" | "029" | "030" | "031" | " " => true
  | _ => false
  end%char.

(** [str.isspace] for a character of two bytes: U+0085 and U+00A0. *)
Definition is_space2 (c1 c2 : ascii) : bool :=
  Ascii.eqb c1 "194" && (Ascii.eqb c2 "133" || Ascii.eqb c2 "160").

(** [str.isspace] for a character of three bytes: U+1680, U+2000..U+200A,
    U+2028, U+2029, U+202F, U+205F and U+3000.  No character of four bytes
    is white space. *)
Definition is_space3 (c1 c2 c3 : ascii) : bool :=
  (Ascii.eqb c1 "225" && Ascii.eqb c2 "154" && Ascii.eqb c3 "128")
  || (Ascii.eqb c1 "226" && Ascii.eqb c2 "128"
      && (let n := nat_of_ascii c3 in
          ((128 <=? n) && (n <=? 138))
          || Nat.eqb n 168 || Nat.eqb n 169 || Nat.eqb n 175))
  || (Ascii.eqb c1 "226" && Ascii.eqb c2 "129" && Ascii.eqb c3 "159")
  || (Ascii.eqb c1 "227" && Ascii.eqb c2 "128" && Ascii.eqb c3 "128").

(** [s.lower()] as far as the letters A..Z go; other bytes are kept. *)
Fixpoint lower (s : string) : string :=
  match s with
  | EmptyString => EmptyString
  | String c s' => String (to_lower c) (lower s')
  end.

(** [s.title()] for a text of ASCII characters: a letter is upper-cased
    when the character before it is not a letter, and lower-cased
    otherwise. *)
Fixpoint title_from (previous_is_cased : bool) (s : string) : string :=
  match s with
  | EmptyString => EmptyString
  | String c s' =>
      String (if previous_is_cased then to_lower c else to_upper c)
             (title_from (is_cased c) s')
  end.

Definition title (s : string) : string := title_from false s.

(** Truth value of a [str]: only the empty string is false. *)
Definition truthy (s : string) : bool :=
  match s with EmptyString => false | String _ _ => true end.

(** The number of bytes of the white-space character [s] begins with, and
    0 when it begins with none. *)
Definition space_width (s : string) : nat :=
  match s with
  | EmptyString => 0
  | String c1 s1 =>
      if is_space c1 then 1
      else
        match s1 with
        | EmptyString => 0
        | String c2 s2 =>
            if is_space2 c1 c2 then 2
            else
              match s2 with
              | EmptyString => 0
              | String c3 _ => if is_space3 c1 c2 c3 then 3 else 0
              end
        end
  end.

(** [s.lstrip()] with no argument: the white-space characters at the
    beginning are dropped one by one. *)
Fixpoint lstrip (s : string) : string :=
  match s with
  | EmptyString => EmptyString
  | String _ s1 =>
      match space_width s with
      | 0 => s
      | 1 => lstrip s1
      | 2 => match s1 with
             | String _ s2 => lstrip s2
             | EmptyString => s
             end
      | _ => match s1 with
             | String _ (String _ s3) => lstrip s3
             | _ => s
             end
      end
  end.

(** [s] consists of white-space characters only (true of the empty
    string): nothing is left of it by [lstrip]. *)
Definition whitespace_only (s : string) : bool := negb (truthy (lstrip s)).

(** [s.rstrip()] with no argument: the text is kept up to its last
    character that is not white space.  A suffix that begins inside a
    character of several bytes begins with a continuation byte and is never
    white space only. *)
Fixpoint rstrip (s : string) : string :=
  match s with
  | EmptyString => EmptyString
  | String c s' => if whitespace_only s then EmptyString else String c (rstrip s')
  end.

(** [s.strip()] with no argument. *)
Definition strip (s : string) : string := rstrip (lstrip s).

(** [s.startswith(p)] *)
Fixpoint startswith (p s : string) : bool :=
  match p, s with
  | EmptyString, _ => true
  | String _ _, EmptyString => false
  | String a p', String b s' => Ascii.eqb a b && startswith p' s'
  end.

(** [p in s] *)
Fixpoint contains (p s : string) : bool :=
  startswith p s ||
  match s with
  | EmptyString => false
  | String _ s' => contains p s'
  end.

(** [sep.join(parts)] *)
Definition join (sep : string) (parts : list string) : string :=
  String.concat sep parts.

(** [s.endswith(p)] *)
Fixpoint endswith (p s : string) : bool :=
  String.eqb p s ||
  match s with
  | EmptyString => false
  | String _ s' => endswith p s'
  end.

(** Every byte of [s] is below 128: the text has ASCII characters only. *)
Fixpoint is_ascii (s : string) : bool :=
  match s with
  | EmptyString => true
  | String c s' => (nat_of_ascii c <? 128) && is_ascii s'
  end.

(** The character [c] does not occur in [s]. *)
Fixpoint lacks (c : ascii) (s : string) : bool :=
  match s with
  | EmptyString => true
  | String a s' => negb (Ascii.eqb a c) && lacks c s'
  end.

End PyStr.

(** ** Data model *)

(** A chat message is a Python dict; the keys used are [role] and
    [content]. *)
Abbreviation Message := (gmap string string).

Definition message_of (role content : string) : Message :=
  {[ "role" := role; "content" := content ]}.

(** [class Evaluation(BaseModel)] *)
Record Evaluation : Type := {
  is_acceptable : bool;
  feedback : string
}.

(** The exceptions that occur in a turn: a failure of a remote call, and
    the attribute access on [None] that follows a response without a parsed
    verdict.  Both are subclasses of [Exception]. *)
Inductive Exception : Type :=
| APIError (detail : string)
| AttributeError (detail : string).

Inductive Outcome (A : Type) : Type :=
| Return (a : A)
| Raise (e : Exception).
Arguments Return {A} a.
Arguments Raise {A} e.

(** The request of [openai_client.chat.completions.create]. *)
Record GenRequest : Type := {
  gen_model : string;
  gen_messages : list Message;
  gen_temperature : Q;
  gen_max_tokens : nat
}.

(** The request of [gemini_client.beta.chat.completions.parse]; the
    response format is always [Evaluation]. *)
Record EvalRequest : Type := {
  eval_model : string;
  eval_messages : list Message
}.

Inductive Call : Type :=
| GenCall (request : GenRequest)
| EvalCall (request : EvalRequest).

Definition is_gen_call (c : Call) : bool :=
  match c with GenCall _ => true | EvalCall _ => false end.

(** The system prompt a generator call was made with: the content of its
    first message, which has the role [system]. *)
Definition system_prompt_of (c : Call) : option string :=
  match c with
  | GenCall request =>
      match gen_messages request with
      | first :: _ =>
          if decide (first !! "role" = Some "system") then first !! "content"
          else None
      | [] => None
      end
  | EvalCall _ => None
  end.

(** The instance attributes of [PersonalChatbot] other than the two
    clients, which are the endpoints the model is parameterised by. *)
Record PersonalChatbot : Type := {
  name : string;
  linkedin_content : string;
  summary_content : string;
  system_prompt : string;
  evaluator_system_prompt : string
}.

Definition nl : string := String "010" EmptyString.

(** ** Prompt construction *)

(** The initial value of [base_prompt] in [_create_prompts]. *)
Definition assistant_framing (name : string) : string :=
  "You are acting as " +:+ name +:+ ". You are answering questions on " +:+ name +:+ "'s website, "
  +:+ "particularly questions related to " +:+ name +:+ "'s career, background, skills and experience. "
  +:+ "Your responsibility is to represent " +:+ name +:+ " for interactions on the website as faithfully as possible. "
  +:+ "You are given a summary of " +:+ name +:+ "'s background and LinkedIn profile which you can use to answer questions. "
  +:+ "Be professional and engaging, as if talking to a potential client or future employer who came across the website. "
  +:+ "If you don't know the answer, say so politely and suggest they contact " +:+ name +:+ " directly.".

(** The initial value of [evaluator_base] in [_create_prompts]. *)
Definition evaluator_framing (name : string) : string :=
  "You are an evaluator that decides whether a response to a question is acceptable quality. "
  +:+ "You are provided with a conversation between a User and an Agent. Your task is to decide whether the Agent's latest response is acceptable. "
  +:+ "The Agent is playing the role of " +:+ name +:+ " and is representing " +:+ name +:+ " on their website. "
  +:+ "The Agent has been instructed to be professional and engaging, as if talking to a potential client or future employer. "
  +:+ "The Agent has been provided with context on " +:+ name +:+ ". Here's the information:".

Definition assistant_closing (name : string) : string :=
  nl +:+ nl +:+ "With this context, please chat with the user, always staying in character as " +:+ name +:+ ".".

Definition evaluator_closing : string :=
  nl +:+ nl +:+ "With this context, please evaluate the latest response, replying with whether the response is acceptable and your feedback.".

Definition _create_prompts (self : PersonalChatbot) : PersonalChatbot :=
  let base_prompt := assistant_framing (name self) in
  let base_prompt :=
    if PyStr.truthy (summary_content self)
    then base_prompt +:+ nl +:+ nl +:+ "## Summary:" +:+ nl +:+ summary_content self
    else base_prompt in
  let base_prompt :=
    if PyStr.truthy (linkedin_content self)
    then base_prompt +:+ nl +:+ nl +:+ "## LinkedIn Profile:" +:+ nl +:+ linkedin_content self
    else base_prompt in
  let evaluator_base := evaluator_framing (name self) in
  let evaluator_base :=
    if PyStr.truthy (summary_content self)
    then evaluator_base +:+ nl +:+ nl +:+ "## Summary:" +:+ nl +:+ summary_content self
    else evaluator_base in
  let evaluator_base :=
    if PyStr.truthy (linkedin_content self)
    then evaluator_base +:+ nl +:+ nl +:+ "## LinkedIn Profile:" +:+ nl +:+ linkedin_content self
    else evaluator_base in
  {| name := name self;
     linkedin_content := linkedin_content self;
     summary_content := summary_content self;
     system_prompt := base_prompt +:+ assistant_closing (name self);
     evaluator_system_prompt := evaluator_base +:+ evaluator_closing |}.

(** [__init__] once the profile texts have been loaded: [linkedin] and
    [summary] are what [_load_profile_data] left in the two attributes,
    the empty string for a text that could not be loaded. *)
Definition new_chatbot (name linkedin summary : string) : PersonalChatbot :=
  _create_prompts
    {| name := name;
       linkedin_content := linkedin;
       summary_content := summary;
       system_prompt := EmptyString;
       evaluator_system_prompt := EmptyString |}.

Definition default_name : string := "Md. Morshed Jamal".

(** ** The history formatter *)

Definition no_previous_conversation : string := "No previous conversation.".

(** The body of the loop of [_format_conversation_history]. *)
Definition format_turn (msg : Message) : string :=
  let role := default "unknown" (msg !! "role") in
  let content := default EmptyString (msg !! "content") in
  PyStr.title role +:+ ": " +:+ content.

Definition _format_conversation_history (history : list Message) : string :=
  match history with
  | [] => no_previous_conversation
  | _ => PyStr.join (nl +:+ nl) (map format_turn history)
  end.

(** ** Fixed texts of a turn *)

Definition default_model : string := "tngtech/deepseek-r1t2-chimera:free".

Definition evaluator_model : string := "gemini-2.5-flash".

(** The canned apology of [_generate_response] and of the handler of
    [chat]; the two f-strings of the source are the same text. *)
Definition apology (name : string) : string :=
  "I apologize, but I'm experiencing technical difficulties. Please try again later or contact "
  +:+ name +:+ " directly.".

Definition please_ask : string :=
  "Please ask me a question about my background, experience, or skills!".

Definition evaluation_unavailable : Evaluation :=
  {| is_acceptable := true; feedback := "Evaluation service unavailable" |}.

(** The text appended to the system prompt for a message about patents. *)
Definition pig_latin_instruction : string :=
  nl +:+ nl +:+ "IMPORTANT: Everything in your reply needs to be in pig latin - "
  +:+ "it is mandatory that you respond only and entirely in pig latin.".

(** How an f-string renders a value that is a [str] or [None]. *)
Definition format_value (value : option string) : string :=
  match value with
  | Some text => text
  | None => "None"
  end.

(** The text [regenerate_response] appends to the system prompt. *)
Definition rejection_block (original_reply feedback : string) : string :=
  nl +:+ nl +:+ "## Previous answer rejected" +:+ nl
  +:+ "You just tried to reply, but the quality control rejected your reply." +:+ nl
  +:+ "## Your attempted answer:" +:+ nl +:+ original_reply +:+ nl +:+ nl
  +:+ "## Reason for rejection:" +:+ nl +:+ feedback +:+ nl +:+ nl
  +:+ "Please provide a better response that addresses the feedback.".

(** The user prompt of [evaluate_response]. *)
Definition evaluation_user_prompt (conversation_history message reply : string) : string :=
  "Here's the conversation between the User and the Agent:" +:+ nl +:+ nl
  +:+ conversation_history +:+ nl +:+ nl
  +:+ "Here's the latest message from the User:" +:+ nl +:+ nl +:+ message +:+ nl +:+ nl
  +:+ "Here's the latest response from the Agent:" +:+ nl +:+ nl +:+ reply +:+ nl +:+ nl
  +:+ "Please evaluate the response, replying with whether it is acceptable and your feedback.".

(** The request [_generate_response] sends. *)
Definition generation_request
    (message : string) (history : list Message) (system_prompt model : string) : GenRequest :=
  {| gen_model := model;
     gen_messages :=
       [message_of "system" system_prompt] ++ history ++ [message_of "user" message];
     gen_temperature := 7 # 10;
     gen_max_tokens := 1000 |}.

(** The request [evaluate_response] sends. *)
Definition evaluation_request
    (self : PersonalChatbot) (reply : option string) (message : string)
    (history : list Message) : EvalRequest :=
  {| eval_model := evaluator_model;
     eval_messages :=
       [message_of "system" (evaluator_system_prompt self);
        message_of "user"
          (evaluation_user_prompt (_format_conversation_history history) message
             (format_value reply))] |}.

(** The system prompt [chat] selects for the first generation. *)
Definition system_to_use (self : PersonalChatbot) (message : string) : string :=
  if PyStr.contains "patent" (PyStr.lower message)
  then system_prompt self +:+ pig_latin_instruction
  else system_prompt self.

(** The system prompt [regenerate_response] builds. *)
Definition updated_system_prompt
    (self : PersonalChatbot) (original_reply : option string) (feedback : string) : string :=
  system_prompt self +:+ rejection_block (format_value original_reply) feedback.

(** ** The turn function over the two endpoints *)

Section Model.

(** The state of the outside world, and the two endpoints: the answer to a
    request may depend on the world and changes it. *)
Variable World : Type.
Variable openai_create : GenRequest → World → Outcome (option string) * World.
Variable gemini_parse : EvalRequest → World → Outcome (option Evaluation) * World.

Record State : Type := {
  world : World;
  calls : list Call
}.

(** Computations that read and change the state and may raise. *)
Definition M (A : Type) : Type := State → Outcome A * State.

Definition ret {A : Type} (a : A) : M A := fun st => (Return a, st).

Definition raise {A : Type} (e : Exception) : M A := fun st => (Raise e, st).

Definition bind {A B : Type} (m : M A) (k : A → M B) : M B :=
  fun st =>
    match m st with
    | (Return a, st') => k a st'
    | (Raise e, st') => (Raise e, st')
    end.

(** [try: body except Exception as e: handler] *)
Definition try_except {A : Type} (body : M A) (handler : Exception → M A) : M A :=
  fun st =>
    match body st with
    | (Return a, st') => (Return a, st')
    | (Raise e, st') => handler e st'
    end.

Notation "'let!' x ':=' m 'in' k" := (bind m (fun x => k))
  (at level 10, x name, m at level 100, k at level 200).

(** One request to the generation endpoint, logged.  The content of the
    message of the first choice is a [str] or [None]. *)
Definition chat_completions_create (request : GenRequest) : M (option string) :=
  fun st =>
    let (outcome, w) := openai_create request (world st) in
    (outcome, {| world := w; calls := calls st ++ [GenCall request] |}).

(** One request to the evaluation endpoint, logged.  The parsed verdict of
    the first choice is [None] when the model returned no parsable
    verdict. *)
Definition beta_chat_completions_parse (request : EvalRequest) : M (option Evaluation) :=
  fun st =>
    let (outcome, w) := gemini_parse request (world st) in
    (outcome, {| world := w; calls := calls st ++ [EvalCall request] |}).

(** Attribute access on the value [evaluate_response] returned. *)
Definition getattr {A : Type} (attribute : string) (get : Evaluation → A)
    (evaluation : option Evaluation) : M A :=
  match evaluation with
  | Some verdict => ret (get verdict)
  | None => raise (AttributeError attribute)
  end.

Definition _generate_response (self : PersonalChatbot) (message : string)
    (history : list Message) (system_prompt model : string) : M (option string) :=
  try_except
    (let! content := chat_completions_create
                       (generation_request message history system_prompt model) in
     ret content)
    (fun e => ret (Some (apology (name self)))).

Definition evaluate_response (self : PersonalChatbot) (reply : option string)
    (message : string) (history : list Message) : M (option Evaluation) :=
  try_except
    (let! parsed := beta_chat_completions_parse
                      (evaluation_request self reply message history) in
     ret parsed)
    (fun e => ret (Some evaluation_unavailable)).

Definition regenerate_response (self : PersonalChatbot) (original_reply : option string)
    (message : string) (history : list Message) (feedback : string) : M (option string) :=
  _generate_response self message history
    (updated_system_prompt self original_reply feedback) default_model.

(** The body of the [try] block of [chat]. *)
Definition chat_turn (self : PersonalChatbot) (message : string)
    (history : list Message) : M (option string) :=
  let! reply := _generate_response self message history
                   (system_to_use self message) default_model in
  let! evaluation := evaluate_response self reply message history in
  let! acceptable := getattr "is_acceptable" is_acceptable evaluation in
  if acceptable then ret reply
  else
    let! feedback := getattr "feedback" feedback evaluation in
    let! improved_reply := regenerate_response self reply message history feedback in
    ret improved_reply.

Definition chat (self : PersonalChatbot) (message : string)
    (history : list Message) : M (option string) :=
  if negb (PyStr.truthy (PyStr.strip message)) then ret (Some please_ask)
  else try_except (chat_turn self message history)
                  (fun e => ret (Some (apology (name self)))).

End Model.

Arguments world {World} _.
Arguments calls {World} _.
Arguments Build_State {World} _ _.

(** What the two wrappers make of the outcome of their remote call. *)
Definition reply_of_outcome (name : string) (outcome : Outcome (option string))
    : option string :=
  match outcome with
  | Return content => content
  | Raise _ => Some (apology name)
  end.

Definition verdict_of_outcome (outcome : Outcome (option Evaluation)) : option Evaluation :=
  match outcome with
  | Return parsed => parsed
  | Raise _ => Some evaluation_unavailable
  end.

(** ** A scripted outside world *)

(** The answers the two endpoints are going to give, in order.  An endpoint
    whose answers are used up refuses the connection. *)
Record Script : Type := {
  generator_answers : list (Outcome (option string));
  evaluator_answers : list (Outcome (option Evaluation))
}.

Definition connection_refused : Exception := APIError "connection refused".

Definition scripted_create (request : GenRequest) (w : Script)
    : Outcome (option string) * Script :=
  match generator_answers w with
  | [] => (Raise connection_refused, w)
  | answer :: rest =>
      (answer, {| generator_answers := rest; evaluator_answers := evaluator_answers w |})
  end.

Definition scripted_parse (request : EvalRequest) (w : Script)
    : Outcome (option Evaluation) * Script :=
  match evaluator_answers w with
  | [] => (Raise connection_refused, w)
  | answer :: rest =>
      (answer, {| generator_answers := generator_answers w; evaluator_answers := rest |})
  end.

(** A turn in the scripted world, from an empty call log. *)
Definition scripted_chat (self : PersonalChatbot) (message : string)
    (history : list Message) (w : Script) : Outcome (option string) * State Script :=
  chat Script scripted_create scripted_parse self message history
       {| world := w; calls := [] |}.

Definition morshed : PersonalChatbot :=
  new_chatbot default_name EmptyString "Backend engineer in Dhaka.".

Definition rejection : Evaluation :=
  {| is_acceptable := false; feedback := "Too vague." |}.

Definition approval : Evaluation :=
  {| is_acceptable := true; feedback := "Clear and professional." |}.

Definition two_turns : list Message :=
  [message_of "user" "Hello"; message_of "assistant" "Hi, how can I help?"].

(** ** The specification's vocabulary *)

(** A blank line between two paragraphs: two line feeds. *)
Definition blank_line : string := String "010" (String "010" EmptyString).

(** The letters of the alphabet in their two cases, and the translation
    of a character of one text to the character at the same place of
    another. *)
Definition small_letters : string := "abcdefghijklmnopqrstuvwxyz".

Definition capital_letters : string := "ABCDEFGHIJKLMNOPQRSTUVWXYZ".

Fixpoint translate (source target : string) (c : ascii) : ascii :=
  match source, target with
  | String a source', String b target' =>
      if Ascii.eqb c a then b else translate source' target' c
  | _, _ => c
  end.

Definition upper_case (c : ascii) : ascii := translate small_letters capital_letters c.

Definition lower_case (c : ascii) : ascii := translate capital_letters small_letters c.

Definition is_letter (c : ascii) : bool :=
  negb (Ascii.eqb (upper_case c) c) || negb (Ascii.eqb (lower_case c) c).

(** A text with each of its words capitalized: the first letter of a word
    in upper case and its other letters in lower case, where a word is a
    run of letters. *)
Fixpoint capitalized_from (inside_word : bool) (s : string) : string :=
  match s with
  | EmptyString => EmptyString
  | String c s' =>
      String (if inside_word then lower_case c else upper_case c)
             (capitalized_from (is_letter c) s')
  end.

Definition capitalized (s : string) : string := capitalized_from false s.

(** The roles of the data model, each with its capitalized spelling. *)
Definition capitalized_role (role : string) : option string :=
  if String.eqb role "system" then Some "System"
  else if String.eqb role "user" then Some "User"
  else if String.eqb role "assistant" then Some "Assistant"
  else None.

(** The transcript as the specification words it: a placeholder for the
    empty history, otherwise each turn as its capitalized role, a colon, a
    space and the content, with a blank line between consecutive turns.  A
    turn without role has the role [unknown], a turn without content the
    empty content. *)
Definition rendered_turn (msg : Message) : string :=
  capitalized (default "unknown" (msg !! "role")) +:+ ": "
  +:+ default EmptyString (msg !! "content").

Fixpoint blank_line_separated (parts : list string) : string :=
  match parts with
  | [] => EmptyString
  | [part] => part
  | part :: rest => part +:+ blank_line +:+ blank_line_separated rest
  end.

Definition transcript (history : list Message) : string :=
  match history with
  | [] => "No previous conversation."
  | _ => blank_line_separated (map rendered_turn history)
  end.

(** The role of every turn is written in ASCII characters. *)
Definition ascii_roles (history : list Message) : bool :=
  forallb (fun msg => PyStr.is_ascii (default "unknown" (msg !! "role"))) history.

(** The white-space characters of Unicode, each in UTF-8: U+0009..U+000D,
    U+001C..U+001F, U+0020, U+0085, U+00A0, U+1680, U+2000..U+200A, U+2028,
    U+2029, U+202F, U+205F and U+3000. *)
Definition utf8 (bytes : list nat) : string :=
  string_of_list_ascii (map ascii_of_nat bytes).

Definition white_space : list string :=
  map utf8
    [[9]; [10]; [11]; [12]; [13]; [28]; [29]; [30]; [31]; [32];
     [194; 133]; [194; 160]; [225; 154; 128];
     [226; 128; 128]; [226; 128; 129]; [226; 128; 130]; [226; 128; 131];
     [226; 128; 132]; [226; 128; 133]; [226; 128; 134]; [226; 128; 135];
     [226; 128; 136]; [226; 128; 137]; [226; 128; 138];
     [226; 128; 168]; [226; 128; 169]; [226; 128; 175]; [226; 129; 159];
     [227; 128; 128]].

(** A text that is empty or consists of white-space characters only. *)
Inductive blank : string → Prop :=
| blank_empty : blank EmptyString
| blank_space (w rest : string) :
    In w white_space → blank rest → blank (w +:+ rest).

(** The text begins, or ends, with a white-space character. *)
Definition begins_with_space (s : string) : bool :=
  existsb (fun w => PyStr.startswith w s) white_space.

Definition ends_with_space (s : string) : bool :=
  existsb (fun w => PyStr.endswith w s) white_space.

(** The message contains the keyword in some mix of upper and lower case. *)
Definition mentions_any_case (keyword message : string) : Prop :=
  ∃ before occurrence after,
    message = before +:+ occurrence +:+ after ∧ PyStr.lower occurrence = keyword.

(** A profile text that may be absent; the attributes hold the empty
    string for an absent text. *)
Definition presence (text : string) : option string :=
  match text with
  | EmptyString => None
  | String _ _ => Some text
  end.

Definition optional_section (heading : string) (text : option string) : string :=
  match text with
  | None => EmptyString
  | Some t => nl +:+ nl +:+ "## " +:+ heading +:+ ":" +:+ nl +:+ t
  end.

(** The two prompts as the specification words them: framing, the two
    optional sections, closing instruction. *)
Definition assistant_prompt (name : string) (summary linkedin : option string) : string :=
  assistant_framing name
  +:+ optional_section "Summary" summary
  +:+ optional_section "LinkedIn Profile" linkedin
  +:+ assistant_closing name.

Definition evaluator_prompt (name : string) (summary linkedin : option string) : string :=
  evaluator_framing name
  +:+ optional_section "Summary" summary
  +:+ optional_section "LinkedIn Profile" linkedin
  +:+ evaluator_closing.

(** The sentence of the pig-latin instruction, without the blank line that
    precedes it. *)
Definition pig_latin_sentence : string :=
  "IMPORTANT: Everything in your reply needs to be in pig latin - "
  +:+ "it is mandatory that you respond only and entirely in pig latin.".

(** ** Two properties the turn function is checked against *)


(** After a failed evaluator call the verdict is acceptable with the
    feedback text [evaluation unavailable]. *)
Definition fails_open_with_feedback {World : Type}
    (gemini_parse : EvalRequest → World → Outcome (option Evaluation) * World)
    (self : PersonalChatbot) (reply : option string) (message : string)
    (history : list Message) (st : State World) (text : string) : Prop :=
  (∃ e, fst (gemini_parse (evaluation_request self reply message history) (world st))
        = Raise e) →
  fst (evaluate_response World gemini_parse self reply message history st)
  = Return (Some {| is_acceptable := true; feedback := text |}).


Definition evaluator_down : Script :=
  {| generator_answers := [Return (Some "I build backend services.")];
     evaluator_answers := [Raise connection_refused] |}.

Definition accepting : Script :=
  {| generator_answers := [Return (Some "I build backend services.")];
     evaluator_answers := [Return (Some approval)] |}.

Definition rejecting : Script :=
  {| generator_answers := [Return (Some "Stuff."); Return (Some "I build backend services.")];
     evaluator_answers := [Return (Some rejection)] |}.

Definition no_content : Script :=
  {| generator_answers := [Return None];
     evaluator_answers := [Return (Some approval)] |}.


Definition fresh (w : Script) : State Script := {| world := w; calls := [] |}.

(** A tab, a no-break space (U+00A0), a next line (U+0085) and an
    ideographic space (U+3000). *)
Definition wide_blank : string := utf8 [9; 194; 160; 194; 133; 227; 128; 128].


(** ** Start-up *)

(** The arguments an [OpenAI] client is built with. *)
Record Client : Type := {
  base_url : string;
  api_key : string
}.

(** The exception of [_initialize_clients]. *)
Inductive StartupException : Type :=
| ValueError (message : string).

Inductive Startup (A : Type) : Type :=
| Started (a : A)
| Fatal (e : StartupException).
Arguments Started {A} a.
Arguments Fatal {A} e.

(** [os.getenv(key)] in the process environment [environ]. *)
Definition getenv (environ : gmap string string) (key : string) : option string :=
  environ !! key.

(** Truth value of what [os.getenv] returns: [None] and the empty string
    are false. *)
Definition key_given (value : option string) : bool :=
  match value with
  | Some key => PyStr.truthy key
  | None => false
  end.

(** The handler of [_initialize_clients] logs and raises the exception
    again, so the block and the function have the same outcome. *)
Definition _initialize_clients (environ : gmap string string) : Startup (Client * Client) :=
  match getenv environ "OPENAI_API_KEY" with
  | Some (String _ _ as openai_api_key) =>
      let openai_client :=
        {| base_url := "https://openrouter.ai/api/v1"; api_key := openai_api_key |} in
      match getenv environ "GOOGLE_API_KEY" with
      | Some (String _ _ as google_api_key) =>
          let gemini_client :=
            {| api_key := google_api_key;
               base_url := "https://generativelanguage.googleapis.com/v1beta/openai/" |} in
          Started (openai_client, gemini_client)
      | _ => Fatal (ValueError "GOOGLE_API_KEY not found in environment variables")
      end
  | _ => Fatal (ValueError "OPENAI_API_KEY not found in environment variables")
  end.

(** ** Loading the profile *)

(** What can go wrong while the two profile files are read; all are
    subclasses of [Exception]. *)
Inductive FileException : Type :=
| OSError (detail : string)
| PdfReadError (detail : string)
| UnicodeDecodeError (detail : string).

Inductive FileRead (A : Type) : Type :=
| ReadOk (a : A)
| ReadRaise (e : FileException).
Arguments ReadOk {A} a.
Arguments ReadRaise {A} e.

(** The two files of the directory [me].  [None] stands for a path that
    does not exist.  For the PDF, the outer outcome is that of
    [PdfReader(pdf_path)] and the list holds the outcome of
    [extract_text] for each page; for the summary, the outcome is that of
    opening and reading the file. *)
Record ProfileFiles : Type := {
  linkedin_pdf : option (FileRead (list (FileRead string)));
  summary_txt : option (FileRead string)
}.

(** The loop over [reader.pages]: the text of a page is appended unless it
    is empty. *)
Fixpoint extract_pages (pages : list (FileRead string)) (linkedin_parts : list string)
    : FileRead (list string) :=
  match pages with
  | [] => ReadOk linkedin_parts
  | page :: rest =>
      match page with
      | ReadOk text =>
          extract_pages rest
            (if PyStr.truthy text then linkedin_parts ++ [text] else linkedin_parts)
      | ReadRaise e => ReadRaise e
      end
  end.

Definition set_linkedin_content (content : string) (self : PersonalChatbot)
    : PersonalChatbot :=
  {| name := name self;
     linkedin_content := content;
     summary_content := summary_content self;
     system_prompt := system_prompt self;
     evaluator_system_prompt := evaluator_system_prompt self |}.

Definition set_summary_content (content : string) (self : PersonalChatbot)
    : PersonalChatbot :=
  {| name := name self;
     linkedin_content := linkedin_content self;
     summary_content := content;
     system_prompt := system_prompt self;
     evaluator_system_prompt := evaluator_system_prompt self |}.

(** The [try] block of [_load_profile_data]: the instance as the block left
    it, and the exception that ended the block, if one was raised. *)
Definition load_profile_block (files : ProfileFiles) (self : PersonalChatbot)
    : PersonalChatbot * option FileException :=
  let after_pdf :=
    match linkedin_pdf files with
    | Some (ReadOk pages) =>
        match extract_pages pages [] with
        | ReadOk linkedin_parts =>
            (set_linkedin_content (PyStr.join nl linkedin_parts) self, None)
        | ReadRaise e => (self, Some e)
        end
    | Some (ReadRaise e) => (self, Some e)
    | None => (self, None)
    end in
  match after_pdf with
  | (self, Some e) => (self, Some e)
  | (self, None) =>
      match summary_txt files with
      | Some (ReadOk text) => (set_summary_content (PyStr.strip text) self, None)
      | Some (ReadRaise e) => (self, Some e)
      | None => (self, None)
      end
  end.

(** The handler logs the exception and goes on. *)
Definition _load_profile_data (files : ProfileFiles) (self : PersonalChatbot)
    : PersonalChatbot :=
  fst (load_profile_block files self).

(** The attributes [__init__] sets before it calls the three methods. *)
Definition blank_chatbot (name : string) : PersonalChatbot :=
  {| name := name;
     linkedin_content := EmptyString;
     summary_content := EmptyString;
     system_prompt := EmptyString;
     evaluator_system_prompt := EmptyString |}.

(** A constructed [PersonalChatbot]: the two clients and the other
    attributes. *)
Record Instance : Type := {
  openai_client : Client;
  gemini_client : Client;
  bot : PersonalChatbot
}.

Definition __init__ (environ : gmap string string) (files : ProfileFiles)
    (name : string) : Startup Instance :=
  let self := blank_chatbot name in
  match _initialize_clients environ with
  | Fatal e => Fatal e
  | Started (openai_client, gemini_client) =>
      let self := _load_profile_data files self in
      let self := _create_prompts self in
      Started {| openai_client := openai_client;
                 gemini_client := gemini_client;
                 bot := self |}
  end.

(** Environments and files used in the examples. *)
Definition both_keys : gmap string string :=
  {[ "OPENAI_API_KEY" := "sk-or-1"; "GOOGLE_API_KEY" := "g-2" ]}.

Definition google_key_empty : gmap string string :=
  {[ "OPENAI_API_KEY" := "sk-or-1"; "GOOGLE_API_KEY" := EmptyString ]}.

Definition readable_files : ProfileFiles :=
  {| linkedin_pdf := Some (ReadOk [ReadOk "Experience"; ReadOk EmptyString; ReadOk "Skills"]);
     summary_txt :=
       Some (ReadOk (utf8 [194; 160] +:+ " Backend engineer in Dhaka." +:+ wide_blank)) |}.

Definition broken_pdf : ProfileFiles :=
  {| linkedin_pdf := Some (ReadOk [ReadOk "Experience"; ReadRaise (PdfReadError "bad page")]);
     summary_txt := Some (ReadOk "Backend engineer in Dhaka.") |}.

Definition broken_summary : ProfileFiles :=
  {| linkedin_pdf := Some (ReadOk [ReadOk "Experience"; ReadOk "Skills"]);
     summary_txt := Some (ReadRaise (UnicodeDecodeError "utf-8")) |}.

Definition textless_files : ProfileFiles :=
  {| linkedin_pdf := Some (ReadOk [ReadOk EmptyString; ReadOk EmptyString]);
     summary_txt := Some (ReadOk wide_blank) |}.

(** * Properties *)

(** ** Strings *)

Module PyStrFacts.
Import PyStr.




Lemma app_nil_l (t : string) : EmptyString +:+ t = t.
Proof. reflexivity. Qed.

Lemma app_cons (c : ascii) (s t : string) :
  String c s +:+ t = String c (s +:+ t).
Proof. reflexivity. Qed.

Lemma app_nil_r (s : string) : s +:+ EmptyString = s.
Proof. induction s as [|c s IH]; [done|]. by rewrite app_cons, IH. Qed.

Lemma app_assoc (s t u : string) : (s +:+ t) +:+ u = s +:+ t +:+ u.
Proof.
  induction s as [|c s IH]; [done|]. by rewrite !app_cons, IH.
Qed.

(** *** Prefix and substring tests *)

Lemma startswith_app (p t : string) : startswith p (p +:+ t) = true.
Proof.
  induction p as [|a p IH]; [done|].
  rewrite app_cons. simpl. by rewrite Ascii.eqb_refl, IH.
Qed.

Lemma startswith_inv (p s : string) :
  startswith p s = true → ∃ t, s = p +:+ t.
Proof.
  revert s. induction p as [|a p IH]; intros s H.
  - by exists s.
  - destruct s as [|b s]; [done|]. simpl in H.
    apply andb_true_iff in H as [Hab Hps].
    apply Ascii.eqb_eq in Hab as ->.
    destruct (IH _ Hps) as [t ->]. by exists t.
Qed.

Lemma startswith_contains (p s : string) :
  startswith p s = true → contains p s = true.
Proof. intros H. destruct s; simpl; by rewrite H. Qed.

Lemma contains_app (a p b : string) : contains p (a +:+ p +:+ b) = true.
Proof.
  induction a as [|c a IH].
  - rewrite app_nil_l. apply startswith_contains, startswith_app.
  - rewrite app_cons. simpl. rewrite IH. apply orb_true_r.
Qed.

Lemma contains_inv (p s : string) :
  contains p s = true → ∃ a b, s = a +:+ p +:+ b.
Proof.
  induction s as [|c s IH]; simpl; intros H.
  - rewrite orb_false_r in H. apply startswith_inv in H as [t ->].
    by exists EmptyString, t.
  - apply orb_true_iff in H as [H|H].
    + apply startswith_inv in H as [t ->]. by exists EmptyString, t.
    + destruct (IH H) as (a & b & ->). by exists (String c a), b.
Qed.

Lemma contains_spec (p s : string) :
  contains p s = true ↔ ∃ a b, s = a +:+ p +:+ b.
Proof.
  split; [apply contains_inv|]. intros (a & b & ->). apply contains_app.
Qed.

Lemma contains_trans (p q s : string) :
  contains p q = true → contains q s = true → contains p s = true.
Proof.
  intros (a & b & ->)%contains_inv (c & d & ->)%contains_inv.
  apply contains_spec. exists (c +:+ a), (b +:+ d).
  by rewrite !app_assoc.
Qed.

Lemma contains_prefix (p t : string) : contains p (p +:+ t) = true.
Proof. apply (contains_app EmptyString p t). Qed.

(** A key without the character [c] cannot straddle an occurrence of [c]. *)
Lemma startswith_sep (c : ascii) (k x y : string) :
  lacks c k = true → startswith k (x +:+ String c y) = startswith k x.
Proof.
  revert x. induction k as [|a k IH]; intros x Hk; [by destruct x|].
  simpl in Hk. apply andb_true_iff in Hk as [Hac Hk].
  destruct x as [|b x].
  - rewrite app_nil_l. simpl. apply negb_true_iff in Hac. by rewrite Hac.
  - rewrite app_cons. simpl. by rewrite IH.
Qed.

Lemma contains_sep (c : ascii) (k x y : string) :
  lacks c k = true →
  contains k (x +:+ String c y) = contains k x || contains k y.
Proof.
  intros Hk. induction x as [|b x IH].
  - rewrite app_nil_l. simpl.
    rewrite <- (app_nil_l (String c y)), (startswith_sep c k EmptyString y Hk).
    by rewrite orb_false_r.
  - rewrite app_cons. simpl.
    rewrite <- app_cons, (startswith_sep c k (String b x) y Hk), IH.
    by rewrite orb_assoc.
Qed.

Lemma contains_concat (c : ascii) (k part : string) (parts : list string) :
  lacks c k = true →
  contains k (String.concat (String c EmptyString) (part :: parts))
  = existsb (contains k) (part :: parts).
Proof.
  intros Hk. revert part. induction parts as [|next parts IH]; intros part.
  - simpl. by rewrite orb_false_r.
  - change (String.concat (String c EmptyString) (part :: next :: parts))
      with (part +:+ String c (String.concat (String c EmptyString) (next :: parts))).
    rewrite (contains_sep c k _ _ Hk), IH. reflexivity.
Qed.

(** *** Lower case *)

Lemma lower_app (s t : string) : lower (s +:+ t) = lower s +:+ lower t.
Proof.
  induction s as [|c s IH]; [done|]. rewrite !app_cons. simpl.
  by rewrite IH, app_cons.
Qed.

Lemma lower_app_inv (s x y : string) :
  lower s = x +:+ y → ∃ s1 s2, s = s1 +:+ s2 ∧ lower s1 = x ∧ lower s2 = y.
Proof.
  revert s. induction x as [|a x IH]; intros s H.
  - by exists EmptyString, s.
  - destruct s as [|c s]; [done|]. rewrite app_cons in H. simpl in H.
    injection H as Hc Hs. destruct (IH _ Hs) as (s1 & s2 & -> & <- & <-).
    exists (String c s1), s2. by rewrite app_cons, <- Hc.
Qed.

(** *** White space *)

Lemma lstrip_unfold (c1 : ascii) (s1 : string) :
  lstrip (String c1 s1)
  = match space_width (String c1 s1) with
    | 0 => String c1 s1
    | 1 => lstrip s1
    | 2 => match s1 with
           | String _ s2 => lstrip s2
           | EmptyString => String c1 s1
           end
    | _ => match s1 with
           | String _ (String _ s3) => lstrip s3
           | _ => String c1 s1
           end
    end.
Proof. reflexivity. Qed.

Ltac pick_space :=
  unfold white_space; simpl; repeat (first [left; reflexivity | right]).

Lemma is_space_table (c : ascii) :
  is_space c = true → In (String c EmptyString) white_space.
Proof.
  destruct c as [[] [] [] [] [] [] [] []]; intros H; try discriminate H; pick_space.
Qed.

Lemma is_space2_table (c1 c2 : ascii) :
  is_space2 c1 c2 = true → In (String c1 (String c2 EmptyString)) white_space.
Proof.
  unfold is_space2. intros [H1 H2]%andb_true_iff.
  apply Ascii.eqb_eq in H1 as ->.
  apply orb_true_iff in H2 as [H2|H2]; apply Ascii.eqb_eq in H2 as ->; pick_space.
Qed.

Lemma is_space3_table (c1 c2 c3 : ascii) :
  is_space3 c1 c2 c3 = true →
  In (String c1 (String c2 (String c3 EmptyString))) white_space.
Proof.
  unfold is_space3. intros H.
  apply orb_true_iff in H as [H|H];
    [apply orb_true_iff in H as [H|H]; [apply orb_true_iff in H as [H|H]|]|];
    apply andb_true_iff in H as [H H3]; apply andb_true_iff in H as [H1 H2];
    apply Ascii.eqb_eq in H1 as ->; apply Ascii.eqb_eq in H2 as ->;
    try (apply Ascii.eqb_eq in H3 as ->; pick_space).
  destruct c3 as [[] [] [] [] [] [] [] []]; try discriminate H3; pick_space.
Qed.

Lemma table_not_empty (w : string) : In w white_space → w ≠ EmptyString.
Proof.
  unfold white_space. simpl. intros H.
  repeat (destruct H as [<-|H]; [discriminate|]). destruct H.
Qed.

Lemma lstrip_table (w rest : string) :
  In w white_space → lstrip (w +:+ rest) = lstrip rest.
Proof.
  unfold white_space. simpl. intros H.
  repeat (destruct H as [<-|H]; [reflexivity|]). destruct H.
Qed.

Lemma space_width_table (w rest : string) :
  In w white_space → space_width (w +:+ rest) ≠ 0.
Proof.
  unfold white_space. simpl. intros H.
  repeat (destruct H as [<-|H]; [discriminate|]). destruct H.
Qed.

Lemma lstrip_no_space (s : string) : space_width s = 0 → lstrip s = s.
Proof.
  destruct s as [|c1 s1]; [done|]. intros H. by rewrite lstrip_unfold, H.
Qed.

(** A text that begins with white space is one white-space character of
    the table followed by a shorter text. *)
Lemma space_width_split (s : string) :
  space_width s ≠ 0 →
  ∃ w rest,
    In w white_space ∧ s = w +:+ rest ∧ lstrip s = lstrip rest
    ∧ String.length rest < String.length s.
Proof.
  destruct s as [|c1 s1]; [done|]. intros Hwidth.
  rewrite lstrip_unfold. unfold space_width in *.
  destruct (is_space c1) eqn:H1.
  { exists (String c1 EmptyString), s1.
    split_and!; [by apply is_space_table|done|done|simpl; lia]. }
  destruct s1 as [|c2 s2]; [done|].
  destruct (is_space2 c1 c2) eqn:H2.
  { exists (String c1 (String c2 EmptyString)), s2.
    split_and!; [by apply is_space2_table|done|done|simpl; lia]. }
  destruct s2 as [|c3 s3]; [done|].
  destruct (is_space3 c1 c2 c3) eqn:H3; [|done].
  exists (String c1 (String c2 (String c3 EmptyString))), s3.
  split_and!; [by apply is_space3_table|done|done|simpl; lia].
Qed.

(** Induction on the length of a text. *)
Lemma length_ind (P : string → Prop) :
  (∀ s, (∀ t, String.length t < String.length s → P t) → P s) → ∀ s, P s.
Proof.
  intros Hstep s.
  assert (∀ n t, String.length t < n → P t) as Hall.
  { induction n as [|n IH]; intros t Ht; [lia|].
    apply Hstep. intros u Hu. apply IH. lia. }
  apply (Hall (S (String.length s))). lia.
Qed.

Lemma space_width_lstrip (s : string) : space_width (lstrip s) = 0.
Proof.
  induction s as [s IH] using length_ind.
  destruct (space_width s) as [|n] eqn:Hwidth.
  - by rewrite (lstrip_no_space s Hwidth).
  - destruct (space_width_split s) as (w & rest & _ & _ & -> & Hshort);
      [by rewrite Hwidth|]. by apply IH.
Qed.

Lemma lstrip_idem (s : string) : lstrip (lstrip s) = lstrip s.
Proof. apply lstrip_no_space, space_width_lstrip. Qed.

Lemma blank_lstrip (s : string) : blank s → lstrip s = EmptyString.
Proof.
  induction 1 as [|w rest Hw _ IH]; [done|]. by rewrite (lstrip_table w rest Hw).
Qed.

Lemma lstrip_blank (s : string) : lstrip s = EmptyString → blank s.
Proof.
  induction s as [s IH] using length_ind. intros Hnil.
  destruct (space_width s) as [|n] eqn:Hwidth.
  - rewrite (lstrip_no_space s Hwidth) in Hnil. subst s. constructor.
  - destruct (space_width_split s) as (w & rest & Hw & -> & Hl & Hshort);
      [by rewrite Hwidth|].
    rewrite Hl in Hnil. constructor; [done|]. by apply IH.
Qed.

Lemma whitespace_only_iff (s : string) : whitespace_only s = true ↔ blank s.
Proof.
  unfold whitespace_only. split.
  - intros H. apply lstrip_blank. by destruct (lstrip s).
  - intros H. by rewrite (blank_lstrip s H).
Qed.

Lemma rstrip_nil (s : string) : rstrip s = EmptyString ↔ whitespace_only s = true.
Proof.
  destruct s as [|c s]; [done|].
  change (rstrip (String c s))
    with (if whitespace_only (String c s) then EmptyString else String c (rstrip s)).
  by destruct (whitespace_only (String c s)).
Qed.

Lemma strip_nil_iff (s : string) : strip s = EmptyString ↔ blank s.
Proof.
  unfold strip. rewrite rstrip_nil. unfold whitespace_only.
  rewrite lstrip_idem. apply whitespace_only_iff.
Qed.

Lemma strip_not_blank (s : string) :
  strip s ≠ EmptyString ↔ whitespace_only s = false.
Proof.
  rewrite strip_nil_iff, <- whitespace_only_iff. by destruct (whitespace_only s).
Qed.

End PyStrFacts.

(** ** Prompt construction *)

Lemma mentions_any_case_iff (keyword message : string) :
  PyStr.contains keyword (PyStr.lower message) = true
  ↔ mentions_any_case keyword message.
Proof.
  split.
  - intros (x & y & H)%PyStrFacts.contains_inv.
    apply PyStrFacts.lower_app_inv in H as (before & rest & -> & _ & H).
    apply PyStrFacts.lower_app_inv in H as (occurrence & after & -> & Hk & _).
    by exists before, occurrence, after.
  - intros (before & occurrence & after & -> & <-).
    rewrite !PyStrFacts.lower_app. apply PyStrFacts.contains_app.
Qed.

Lemma create_prompts_assistant (name linkedin summary : string) :
  system_prompt (new_chatbot name linkedin summary)
  = assistant_prompt name (presence summary) (presence linkedin).
Proof.
  unfold new_chatbot, _create_prompts, assistant_prompt; simpl.
  destruct summary, linkedin; simpl;
    rewrite ?PyStrFacts.app_assoc; reflexivity.
Qed.

Lemma create_prompts_evaluator (name linkedin summary : string) :
  evaluator_system_prompt (new_chatbot name linkedin summary)
  = evaluator_prompt name (presence summary) (presence linkedin).
Proof.
  unfold new_chatbot, _create_prompts, evaluator_prompt; simpl.
  destruct summary, linkedin; simpl;
    rewrite ?PyStrFacts.app_assoc; reflexivity.
Qed.

(** C8: whatever profile texts are present, prompt construction yields a
    chatbot (it is a total function, nothing can fail).  The assistant
    prompt is the persona instructions written out below, then the section
    of each profile text that is not empty, then the instruction to stay in
    character; the evaluator prompt is the instructions for the judge
    written out below, the same sections and the instruction to judge.  So
    each prompt begins with its persona instructions, and a text that is
    absent has no section: with both absent, no heading occurs at all. *)
Theorem create_prompts_persona_framing (name linkedin summary : string) :
  let self := new_chatbot name linkedin summary in
  let persona :=
    "You are acting as " +:+ name +:+ ". You are answering questions on " +:+ name +:+ "'s website, "
    +:+ "particularly questions related to " +:+ name +:+ "'s career, background, skills and experience. "
    +:+ "Your responsibility is to represent " +:+ name +:+ " for interactions on the website as faithfully as possible. "
    +:+ "You are given a summary of " +:+ name +:+ "'s background and LinkedIn profile which you can use to answer questions. "
    +:+ "Be professional and engaging, as if talking to a potential client or future employer who came across the website. "
    +:+ "If you don't know the answer, say so politely and suggest they contact " +:+ name +:+ " directly." in
  let judge :=
    "You are an evaluator that decides whether a response to a question is acceptable quality. "
    +:+ "You are provided with a conversation between a User and an Agent. Your task is to decide whether the Agent's latest response is acceptable. "
    +:+ "The Agent is playing the role of " +:+ name +:+ " and is representing " +:+ name +:+ " on their website. "
    +:+ "The Agent has been instructed to be professional and engaging, as if talking to a potential client or future employer. "
    +:+ "The Agent has been provided with context on " +:+ name +:+ ". Here's the information:" in
  let section (heading text : string) :=
    match text with
    | EmptyString => EmptyString
    | String _ _ => blank_line +:+ heading +:+ String "010" text
    end in
  system_prompt self
  = persona
    +:+ section "## Summary:" summary
    +:+ section "## LinkedIn Profile:" linkedin
    +:+ blank_line
    +:+ "With this context, please chat with the user, always staying in character as "
    +:+ name +:+ "."
  ∧ evaluator_system_prompt self
    = judge
      +:+ section "## Summary:" summary
      +:+ section "## LinkedIn Profile:" linkedin
      +:+ blank_line
      +:+ "With this context, please evaluate the latest response, replying with whether the response is acceptable and your feedback."
  ∧ PyStr.startswith persona (system_prompt self) = true
  ∧ PyStr.startswith judge (evaluator_system_prompt self) = true
  ∧ PyStr.contains "You are acting as " (system_prompt self) = true
  ∧ PyStr.contains
      "You are an evaluator that decides whether a response to a question is acceptable quality. "
      (evaluator_system_prompt self) = true
  ∧ PyStr.contains "## "
      (system_prompt (new_chatbot "Md. Morshed Jamal" EmptyString EmptyString)) = false
  ∧ PyStr.contains "## "
      (evaluator_system_prompt (new_chatbot "Md. Morshed Jamal" EmptyString EmptyString))
    = false.
Proof.
  intros self persona judge section.
  assert (system_prompt self
          = persona +:+ section "## Summary:" summary
            +:+ section "## LinkedIn Profile:" linkedin +:+ blank_line
            +:+ "With this context, please chat with the user, always staying in character as "
            +:+ name +:+ ".") as Hassistant.
  { subst self. rewrite create_prompts_assistant.
    unfold assistant_prompt, assistant_framing. fold persona.
    destruct summary, linkedin; reflexivity. }
  assert (evaluator_system_prompt self
          = judge +:+ section "## Summary:" summary
            +:+ section "## LinkedIn Profile:" linkedin +:+ blank_line
            +:+ "With this context, please evaluate the latest response, replying with whether the response is acceptable and your feedback.")
    as Hevaluator.
  { subst self. rewrite create_prompts_evaluator.
    unfold evaluator_prompt, evaluator_framing. fold judge.
    destruct summary, linkedin; reflexivity. }
  split_and!; [exact Hassistant | exact Hevaluator | ..].
  - rewrite Hassistant. apply PyStrFacts.startswith_app.
  - rewrite Hevaluator. apply PyStrFacts.startswith_app.
  - rewrite Hassistant. subst persona. rewrite !PyStrFacts.app_assoc.
    apply PyStrFacts.contains_prefix.
  - rewrite Hevaluator. subst judge. rewrite !PyStrFacts.app_assoc.
    apply PyStrFacts.contains_prefix.
  - reflexivity.
  - reflexivity.
Qed.

(** ** The history formatter *)

Lemma to_upper_upper_case (c : ascii) : PyStr.to_upper c = upper_case c.
Proof. by destruct c as [[] [] [] [] [] [] [] []]. Qed.

Lemma to_lower_lower_case (c : ascii) : PyStr.to_lower c = lower_case c.
Proof. by destruct c as [[] [] [] [] [] [] [] []]. Qed.

Lemma is_cased_is_letter (c : ascii) : PyStr.is_cased c = is_letter c.
Proof. by destruct c as [[] [] [] [] [] [] [] []]. Qed.

Lemma title_from_capitalized (previous : bool) (s : string) :
  PyStr.title_from previous s = capitalized_from previous s.
Proof.
  revert previous. induction s as [|c s IH]; intros previous; [done|]. simpl.
  by rewrite IH, to_upper_upper_case, to_lower_lower_case, is_cased_is_letter.
Qed.

Lemma format_turn_rendered (msg : Message) : format_turn msg = rendered_turn msg.
Proof.
  unfold format_turn, rendered_turn, PyStr.title, capitalized.
  by rewrite title_from_capitalized.
Qed.

Lemma join_blank_line_separated (parts : list string) :
  PyStr.join (nl +:+ nl) parts = blank_line_separated parts.
Proof.
  unfold PyStr.join. induction parts as [|part [|next rest] IH]; [done..|].
  change (part +:+ (nl +:+ nl) +:+ String.concat (nl +:+ nl) (next :: rest)
          = part +:+ blank_line +:+ blank_line_separated (next :: rest)).
  by rewrite IH.
Qed.

Lemma capitalized_role_label (role label : string) :
  capitalized_role role = Some label → capitalized role = label.
Proof.
  unfold capitalized_role.
  destruct (String.eqb_spec role "system") as [->|_]; [by intros [= <-]|].
  destruct (String.eqb_spec role "user") as [->|_]; [by intros [= <-]|].
  destruct (String.eqb_spec role "assistant") as [->|_]; [by intros [= <-]|done].
Qed.

(** C9: the formatter returns the fixed placeholder for the empty history.
    For every history whose roles are written in ASCII it returns the
    transcript: each turn rendered as its capitalized role, a colon, a
    space and the content, with a blank line (two line feeds) between
    consecutive turns.  For the roles of the data model the capitalized
    role is [System], [User] or [Assistant]. *)
Theorem format_conversation_history_transcript :
  _format_conversation_history [] = "No previous conversation."
  ∧ ∀ history : list Message,
      ascii_roles history = true →
      _format_conversation_history history = transcript history
      ∧ ∀ msg role label,
          In msg history →
          msg !! "role" = Some role →
          capitalized_role role = Some label →
          format_turn msg = label +:+ ": " +:+ default EmptyString (msg !! "content").
Proof.
  split; [done|]. intros history _. split.
  - destruct history as [|msg rest]; [done|].
    transitivity (PyStr.join (nl +:+ nl) (map format_turn (msg :: rest))); [done|].
    rewrite join_blank_line_separated. unfold transcript. f_equal.
    apply map_ext. intros. apply format_turn_rendered.
  - intros msg role label _ Hrole Hlabel.
    rewrite format_turn_rendered. unfold rendered_turn. rewrite Hrole. simpl.
    by rewrite (capitalized_role_label role label Hlabel).
Qed.

Lemma format_conversation_history_transcript_witness :
  ascii_roles two_turns = true
  ∧ _format_conversation_history two_turns
    = "User: Hello" +:+ String "010" (String "010" "Assistant: Hi, how can I help?")
  ∧ format_turn (message_of "system" "Be brief.") = "System: Be brief.".
Proof.
  destruct format_conversation_history_transcript as [_ Hhistory].
  destruct (Hhistory two_turns eq_refl) as [Htranscript _].
  destruct (Hhistory [message_of "system" "Be brief."] eq_refl) as [_ Hlabel].
  split_and!; [reflexivity | by rewrite Htranscript |].
  rewrite (Hlabel (message_of "system" "Be brief.") "system" "System");
    [reflexivity | by left | reflexivity | reflexivity].
Defined.

(** Outside the closed set of roles the formatter follows [str.title],
    which also lowers the letters after the first of each word. *)
Example format_turn_other_role :
  format_turn (message_of "USER agent" "hi") = "User Agent: hi".
Proof. reflexivity. Qed.

(** ** The turn function *)

Section Turn.

Context {World : Type}.
Variable openai_create : GenRequest → World → Outcome (option string) * World.
Variable gemini_parse : EvalRequest → World → Outcome (option Evaluation) * World.

Local Abbreviation generate := (_generate_response World openai_create).
Local Abbreviation evaluate := (evaluate_response World gemini_parse).
Local Abbreviation regenerate := (regenerate_response World openai_create).
Local Abbreviation turn := (chat_turn World openai_create gemini_parse).
Local Abbreviation chat' := (chat World openai_create gemini_parse).

(** The generator wrapper sends one request and never raises. *)
Lemma generate_run (self : PersonalChatbot) (message : string) (history : list Message)
    (prompt model : string) (st : State World) :
  let request := generation_request message history prompt model in
  generate self message history prompt model st
  = (Return (reply_of_outcome (name self) (fst (openai_create request (world st)))),
     {| world := snd (openai_create request (world st));
        calls := calls st ++ [GenCall request] |}).
Proof.
  unfold _generate_response, try_except, bind, chat_completions_create, ret.
  simpl. by destruct (openai_create _ _) as [[content|e] w].
Qed.

(** The evaluator wrapper sends one request and never raises. *)
Lemma evaluate_run (self : PersonalChatbot) (reply : option string) (message : string)
    (history : list Message) (st : State World) :
  let request := evaluation_request self reply message history in
  evaluate self reply message history st
  = (Return (verdict_of_outcome (fst (gemini_parse request (world st)))),
     {| world := snd (gemini_parse request (world st));
        calls := calls st ++ [EvalCall request] |}).
Proof.
  unfold evaluate_response, try_except, bind, beta_chat_completions_parse, ret.
  simpl. by destruct (gemini_parse _ _) as [[parsed|e] w].
Qed.

Lemma generate_inv (self : PersonalChatbot) (message : string) (history : list Message)
    (prompt model : string) (st st1 : State World) (outcome : Outcome (option string)) :
  generate self message history prompt model st = (outcome, st1) →
  (∃ reply, outcome = Return reply)
  ∧ calls st1
    = calls st ++ [GenCall (generation_request message history prompt model)].
Proof. rewrite generate_run. intros [= <- <-]. eauto. Qed.

Lemma evaluate_inv (self : PersonalChatbot) (reply : option string) (message : string)
    (history : list Message) (st st2 : State World)
    (outcome : Outcome (option Evaluation)) :
  evaluate self reply message history st = (outcome, st2) →
  (∃ evaluation, outcome = Return evaluation)
  ∧ calls st2 = calls st ++ [EvalCall (evaluation_request self reply message history)].
Proof. rewrite evaluate_run. intros [= <- <-]. eauto. Qed.

(** A message that is not blank enters the [try] block. *)
Lemma chat_try (self : PersonalChatbot) (message : string) (history : list Message)
    (st : State World) :
  PyStr.strip message ≠ EmptyString →
  chat' self message history st
  = try_except World (turn self message history)
      (fun _ => ret World (Some (apology (name self)))) st.
Proof.
  intros H. unfold chat. by destruct (PyStr.strip message).
Qed.

(** The [try] block after the first reply and its evaluation. *)
Lemma turn_run (self : PersonalChatbot) (message : string) (history : list Message)
    (st st1 st2 : State World) (reply : option string) (evaluation : option Evaluation) :
  generate self message history (system_to_use self message) default_model st
  = (Return reply, st1) →
  evaluate self reply message history st1 = (Return evaluation, st2) →
  turn self message history st
  = match evaluation with
    | None => (Raise (AttributeError "is_acceptable"), st2)
    | Some verdict =>
        if is_acceptable verdict then (Return reply, st2)
        else regenerate self reply message history (feedback verdict) st2
    end.
Proof.
  intros Hgen Heval. unfold chat_turn, bind at 1. rewrite Hgen.
  unfold bind at 1. rewrite Heval.
  destruct evaluation as [verdict|]; [|done].
  unfold bind at 1. simpl. destruct (is_acceptable verdict); [done|].
  unfold bind, ret. simpl.
  by destruct (regenerate_response _ _ _ _ _ _ _ _) as [[improved|e] st3].
Qed.

Lemma system_prompt_of_generation
    (message : string) (history : list Message) (prompt model : string) :
  system_prompt_of (GenCall (generation_request message history prompt model))
  = Some prompt.
Proof.
  unfold system_prompt_of, generation_request, message_of. simpl.
  rewrite lookup_insert_eq. rewrite decide_True by done.
  by rewrite lookup_insert_ne, lookup_singleton_eq.
Qed.

(** After a rejection the turn is one more run of the generator. *)
Lemma chat_regenerates (self : PersonalChatbot) (message : string)
    (history : list Message) (st st1 st2 : State World)
    (reply : option string) (verdict : Evaluation) :
  PyStr.strip message ≠ EmptyString →
  generate self message history (system_to_use self message) default_model st
  = (Return reply, st1) →
  evaluate self reply message history st1 = (Return (Some verdict), st2) →
  is_acceptable verdict = false →
  chat' self message history st
  = generate self message history
      (updated_system_prompt self reply (feedback verdict)) default_model st2.
Proof.
  intros Hm Hgen Heval Hno.
  rewrite (chat_try _ _ _ _ Hm). unfold try_except.
  rewrite (turn_run _ _ _ _ _ _ _ _ Hgen Heval), Hno.
  unfold regenerate_response. by rewrite generate_run.
Qed.

(** The calls of a turn up to the end of the evaluation. *)
Lemma calls_after_evaluation (self : PersonalChatbot) (message : string)
    (history : list Message) (st st1 st2 : State World) (prompt : string) (reply : option string)
    (o1 : Outcome (option string)) (o2 : Outcome (option Evaluation)) :
  generate self message history prompt default_model st = (o1, st1) →
  evaluate self reply message history st1 = (o2, st2) →
  calls st2
  = calls st
    ++ [GenCall (generation_request message history prompt default_model);
        EvalCall (evaluation_request self reply message history)].
Proof.
  intros [_ Hgen]%generate_inv [_ Heval]%evaluate_inv.
  by rewrite Heval, Hgen, <- app_assoc.
Qed.

Lemma startswith_app_cancel (s a b : string) :
  PyStr.startswith (s +:+ a) (s +:+ b) = PyStr.startswith a b.
Proof.
  induction s as [|c s IH]; [done|].
  rewrite !PyStrFacts.app_cons. simpl. by rewrite Ascii.eqb_refl.
Qed.

Lemma updated_system_prompt_lines (self : PersonalChatbot) (reply : option string)
    (feedback : string) :
  updated_system_prompt self reply feedback
  = String.concat nl
      [system_prompt self; EmptyString; "## Previous answer rejected";
       "You just tried to reply, but the quality control rejected your reply.";
       "## Your attempted answer:"; format_value reply; EmptyString;
       "## Reason for rejection:"; feedback; EmptyString;
       "Please provide a better response that addresses the feedback."].
Proof. reflexivity. Qed.

(** C6: for a message that is empty or consists of white-space characters
    only, whichever of the white-space characters of Unicode they are,
    [chat] returns the fixed request for a question and leaves the world
    and the call log as they were: no generator, evaluator or regeneration
    call is made. *)
Theorem chat_blank_message (self : PersonalChatbot) (message : string)
    (history : list Message) (st : State World) :
  blank message →
  chat' self message history st
  = (Return (Some "Please ask me a question about my background, experience, or skills!"),
     st).
Proof.
  intros H%PyStrFacts.strip_nil_iff. unfold chat. by rewrite H.
Qed.

(** C2: for a message that is not blank, when the evaluation of the first
    reply yields a verdict with [is_acceptable] true, [chat] returns the
    first reply of the generator as it is, and the turn has made the first
    generator call and the evaluator call and no other call. *)
Theorem chat_accepted (self : PersonalChatbot) (message : string)
    (history : list Message) (st st1 st2 : State World)
    (reply : option string) (verdict : Evaluation) :
  PyStr.strip message ≠ EmptyString →
  generate self message history (system_to_use self message) default_model st
  = (Return reply, st1) →
  evaluate self reply message history st1 = (Return (Some verdict), st2) →
  is_acceptable verdict = true →
  chat' self message history st = (Return reply, st2)
  ∧ calls st2
    = calls st
      ++ [GenCall (generation_request message history
                     (system_to_use self message) default_model);
          EvalCall (evaluation_request self reply message history)].
Proof.
  intros Hm Hgen Heval Hok. split.
  - rewrite (chat_try _ _ _ _ Hm). unfold try_except.
    by rewrite (turn_run _ _ _ _ _ _ _ _ Hgen Heval), Hok.
  - apply (calls_after_evaluation _ _ _ _ _ _ _ _ _ _ Hgen Heval).
Qed.

(** C1: for a message that is not blank, when the evaluation of the first
    reply yields a verdict with [is_acceptable] false, [chat] returns what
    one more run of the generator returns, whatever it is; that run is made
    with a system prompt that contains the rejected reply and the feedback
    of the verdict; the turn has made the first generator call, the
    evaluator call and this second generator call, and no other call. *)
Theorem chat_rejected (self : PersonalChatbot) (message : string)
    (history : list Message) (st st1 st2 : State World)
    (reply : option string) (verdict : Evaluation) :
  PyStr.strip message ≠ EmptyString →
  generate self message history (system_to_use self message) default_model st
  = (Return reply, st1) →
  evaluate self reply message history st1 = (Return (Some verdict), st2) →
  is_acceptable verdict = false →
  let prompt := updated_system_prompt self reply (feedback verdict) in
  let second := generation_request message history prompt default_model in
  ∃ (improved_reply : option string) (st3 : State World),
    chat' self message history st = (Return improved_reply, st3)
    ∧ generate self message history prompt default_model st2
      = (Return improved_reply, st3)
    ∧ calls st3
      = calls st
        ++ [GenCall (generation_request message history
                       (system_to_use self message) default_model);
            EvalCall (evaluation_request self reply message history);
            GenCall second]
    ∧ system_prompt_of (GenCall second) = Some prompt
    ∧ PyStr.contains (format_value reply) prompt = true
    ∧ PyStr.contains (feedback verdict) prompt = true.
Proof.
  intros Hm Hgen Heval Hno prompt second.
  destruct (generate self message history prompt default_model st2)
    as [outcome st3] eqn:Hregen.
  destruct (generate_inv _ _ _ _ _ _ _ _ Hregen) as [[improved ->] Hcalls].
  exists improved, st3. split_and!.
  - rewrite (chat_regenerates _ _ _ _ _ _ _ _ Hm Hgen Heval Hno).
    fold prompt. by rewrite Hregen.
  - reflexivity.
  - by rewrite Hcalls, (calls_after_evaluation _ _ _ _ _ _ _ _ _ _ Hgen Heval),
      <- app_assoc.
  - apply system_prompt_of_generation.
  - apply PyStrFacts.contains_spec.
    exists (system_prompt self +:+ nl +:+ nl +:+ "## Previous answer rejected" +:+ nl
            +:+ "You just tried to reply, but the quality control rejected your reply."
            +:+ nl +:+ "## Your attempted answer:" +:+ nl).
    eexists. subst prompt. unfold updated_system_prompt, rejection_block.
    rewrite !PyStrFacts.app_assoc. reflexivity.
  - apply PyStrFacts.contains_spec.
    exists (system_prompt self +:+ nl +:+ nl +:+ "## Previous answer rejected" +:+ nl
            +:+ "You just tried to reply, but the quality control rejected your reply."
            +:+ nl +:+ "## Your attempted answer:" +:+ nl +:+ format_value reply
            +:+ nl +:+ nl +:+ "## Reason for rejection:" +:+ nl).
    eexists. subst prompt. unfold updated_system_prompt, rejection_block.
    rewrite !PyStrFacts.app_assoc. reflexivity.
Qed.

(** C10: for a message that mentions the keyword in any case and whose
    first reply is rejected, the first generator call carries the assistant
    prompt with the pig-latin instruction appended, while the regeneration
    call carries the assistant prompt with the rejection block appended: it
    does not extend the prompt of the first call, and the sentence of the
    instruction occurs in it only if the assistant prompt, the rejected
    reply or the feedback quotes it. *)
Theorem regeneration_without_pig_latin (self : PersonalChatbot) (message : string)
    (history : list Message) (st st1 st2 : State World)
    (reply : option string) (verdict : Evaluation) :
  PyStr.strip message ≠ EmptyString →
  mentions_any_case "patent" message →
  generate self message history (system_to_use self message) default_model st
  = (Return reply, st1) →
  evaluate self reply message history st1 = (Return (Some verdict), st2) →
  is_acceptable verdict = false →
  let first_prompt := system_prompt self +:+ pig_latin_instruction in
  let prompt :=
    system_prompt self +:+ rejection_block (format_value reply) (feedback verdict) in
  let first := GenCall (generation_request message history first_prompt default_model) in
  let second := GenCall (generation_request message history prompt default_model) in
  calls (snd (chat' self message history st))
  = calls st ++ [first; EvalCall (evaluation_request self reply message history); second]
  ∧ system_prompt_of first = Some first_prompt
  ∧ system_prompt_of second = Some prompt
  ∧ PyStr.startswith first_prompt prompt = false
  ∧ (PyStr.contains pig_latin_sentence (system_prompt self) = false →
     PyStr.contains pig_latin_sentence (format_value reply) = false →
     PyStr.contains pig_latin_sentence (feedback verdict) = false →
     PyStr.contains pig_latin_sentence prompt = false
     ∧ PyStr.contains pig_latin_instruction prompt = false).
Proof.
  intros Hm Hkey Hgen Heval Hno first_prompt prompt first second.
  assert (system_to_use self message = first_prompt) as Huse.
  { unfold system_to_use.
    by rewrite (proj2 (mentions_any_case_iff "patent" message) Hkey). }
  split_and!.
  - rewrite (chat_regenerates _ _ _ _ _ _ _ _ Hm Hgen Heval Hno), generate_run.
    simpl. rewrite (calls_after_evaluation _ _ _ _ _ _ _ _ _ _ Hgen Heval), Huse.
    by rewrite <- app_assoc.
  - apply system_prompt_of_generation.
  - apply system_prompt_of_generation.
  - subst first_prompt prompt. by rewrite startswith_app_cancel.
  - intros Hprompt Hreply Hfeedback.
    assert (PyStr.contains pig_latin_sentence prompt = false) as Hsentence.
    { subst prompt. fold (updated_system_prompt self reply (feedback verdict)).
      rewrite updated_system_prompt_lines.
      rewrite (PyStrFacts.contains_concat "010" pig_latin_sentence) by done.
      simpl existsb. by rewrite Hprompt, Hreply, Hfeedback. }
    split; [done|].
    destruct (PyStr.contains pig_latin_instruction prompt) eqn:Hwhole; [|done].
    rewrite <- Hsentence. symmetry.
    apply (PyStrFacts.contains_trans _ pig_latin_instruction); [done|exact Hwhole].
Qed.



(** C4, as the code has it: when the evaluator call fails,
    [evaluate_response] returns the verdict with [is_acceptable] true and
    the feedback [Evaluation service unavailable], and so [chat] returns
    the first reply of the generator unchanged, with no regeneration
    call. *)
Theorem evaluator_failure_fails_open (self : PersonalChatbot) (reply : option string) (message : string)
    (history : list Message) (st1 : State World) (e : Exception) (w2 : World) :
  let judged := evaluation_request self reply message history in
  gemini_parse judged (world st1) = (Raise e, w2) →
  let st2 := {| world := w2; calls := calls st1 ++ [EvalCall judged] |} in
  evaluate self reply message history st1
  = (Return (Some {| is_acceptable := true;
                     feedback := "Evaluation service unavailable" |}), st2)
  ∧ ∀ st : State World,
      PyStr.strip message ≠ EmptyString →
      generate self message history (system_to_use self message) default_model st
      = (Return reply, st1) →
      chat' self message history st = (Return reply, st2)
      ∧ calls st2
        = calls st
          ++ [GenCall (generation_request message history
                         (system_to_use self message) default_model);
              EvalCall judged].
Proof.
  intros judged Hfail st2.
  assert (evaluate self reply message history st1
          = (Return (Some evaluation_unavailable), st2)) as Heval.
  { rewrite evaluate_run. fold judged. by rewrite Hfail. }
  split; [exact Heval|]. intros st Hm Hgen. split.
  - rewrite (chat_try _ _ _ _ Hm). unfold try_except.
    by rewrite (turn_run _ _ _ _ _ _ _ _ Hgen Heval).
  - apply (calls_after_evaluation _ _ _ _ _ _ _ _ _ _ Hgen Heval).
Qed.


End Turn.

(** ** The turn function in scripted worlds *)

Lemma chat_blank_message_witness :
  blank wide_blank
  ∧ scripted_chat morshed wide_blank two_turns accepting
    = (Return (Some please_ask), fresh accepting)
  ∧ scripted_chat morshed EmptyString two_turns accepting
    = (Return (Some please_ask), fresh accepting).
Proof.
  assert (blank wide_blank) as Hblank.
  { apply (blank_space (utf8 [9])); [by left|].
    apply (blank_space (utf8 [194; 160])); [do 11 right; by left|].
    apply (blank_space (utf8 [194; 133])); [do 10 right; by left|].
    apply (blank_space (utf8 [227; 128; 128])); [do 28 right; by left|].
    apply blank_empty. }
  split_and!; [exact Hblank | |].
  - apply (chat_blank_message scripted_create scripted_parse). exact Hblank.
  - apply (chat_blank_message scripted_create scripted_parse). apply blank_empty.
Defined.

Lemma chat_accepted_witness :
  fst (scripted_chat morshed "What do you do?" two_turns accepting)
  = Return (Some "I build backend services.")
  ∧ map is_gen_call
      (calls (snd (scripted_chat morshed "What do you do?" two_turns accepting)))
    = [true; false].
Proof.
  edestruct (chat_accepted scripted_create scripted_parse morshed
               "What do you do?" two_turns (fresh accepting)) as [Hchat Hcalls].
  - discriminate.
  - reflexivity.
  - reflexivity.
  - reflexivity.
  - unfold scripted_chat. fold (fresh accepting). rewrite Hchat.
    split; reflexivity.
Defined.

Lemma chat_rejected_witness :
  fst (scripted_chat morshed "What do you do?" two_turns rejecting)
  = Return (Some "I build backend services.")
  ∧ map is_gen_call
      (calls (snd (scripted_chat morshed "What do you do?" two_turns rejecting)))
    = [true; false; true]
  ∧ PyStr.contains "Stuff." (updated_system_prompt morshed (Some "Stuff.") "Too vague.") = true
  ∧ PyStr.contains "Too vague." (updated_system_prompt morshed (Some "Stuff.") "Too vague.") = true.
Proof.
  edestruct (chat_rejected scripted_create scripted_parse morshed
               "What do you do?" two_turns (fresh rejecting))
    as (improved & st3 & Hchat & Hregen & Hcalls & _ & Hreply & Hfeedback).
  - discriminate.
  - reflexivity.
  - reflexivity.
  - reflexivity.
  - unfold scripted_chat. fold (fresh rejecting). rewrite Hchat.
    injection Hregen as <- <-.
    split_and!; [reflexivity | reflexivity | exact Hreply | exact Hfeedback].
Defined.



Lemma regeneration_without_pig_latin_witness :
  map system_prompt_of
    (calls (snd (scripted_chat morshed "Any PATENTS?" two_turns rejecting)))
  = [Some (system_prompt morshed +:+ pig_latin_instruction); None;
     Some (system_prompt morshed +:+ rejection_block "Stuff." "Too vague.")]
  ∧ PyStr.contains pig_latin_instruction
      (system_prompt morshed +:+ rejection_block "Stuff." "Too vague.") = false.
Proof.
  edestruct (regeneration_without_pig_latin scripted_create scripted_parse morshed
               "Any PATENTS?" two_turns (fresh rejecting))
    as (Hcalls & _ & _ & _ & Habsent).
  - discriminate.
  - by exists "Any ", "PATENT", "S?".
  - reflexivity.
  - reflexivity.
  - reflexivity.
  - split.
    + unfold scripted_chat. fold (fresh rejecting). rewrite Hcalls. reflexivity.
    + apply Habsent; reflexivity.
Defined.


Lemma evaluator_failure_fails_open_witness :
  fst (scripted_chat morshed "What do you do?" two_turns evaluator_down)
  = Return (Some "I build backend services.")
  ∧ map is_gen_call
      (calls (snd (scripted_chat morshed "What do you do?" two_turns evaluator_down)))
    = [true; false].
Proof.
  edestruct (evaluator_failure_fails_open scripted_create scripted_parse morshed
               (Some "I build backend services.") "What do you do?" two_turns
               (snd (_generate_response Script scripted_create morshed
                       "What do you do?" two_turns
                       (system_to_use morshed "What do you do?") default_model
                       (fresh evaluator_down)))
               connection_refused) as [_ Hchat].
  - reflexivity.
  - destruct (Hchat (fresh evaluator_down)) as [Hout Hcalls];
      [discriminate | reflexivity |].
    unfold scripted_chat. fold (fresh evaluator_down). rewrite Hout. simpl.
    split; reflexivity.
Defined.


(** C4: the feedback of the fail-open verdict is another text than
    [evaluation unavailable]. *)
Lemma fail_open_feedback_text :
  ¬ fails_open_with_feedback scripted_parse morshed
      (Some "I build backend services.") "What do you do?" two_turns
      (fresh evaluator_down) "evaluation unavailable".
Proof.
  intros Hopen. unfold fails_open_with_feedback in Hopen.
  assert (∃ e, fst (scripted_parse
                      (evaluation_request morshed (Some "I build backend services.")
                         "What do you do?" two_turns)
                      (world (fresh evaluator_down))) = Raise e) as Hfail
    by (by exists connection_refused).
  specialize (Hopen Hfail). discriminate Hopen.
Qed.

(** ** More on strings *)

Module PyStrLaws.
Import PyStr.

Lemma to_lower_idem (c : ascii) : to_lower (to_lower c) = to_lower c.
Proof. by destruct c as [[] [] [] [] [] [] [] []]. Qed.

Lemma to_lower_to_upper (c : ascii) : to_lower (to_upper c) = to_lower c.
Proof. by destruct c as [[] [] [] [] [] [] [] []]. Qed.

Lemma to_upper_idem (c : ascii) : to_upper (to_upper c) = to_upper c.
Proof. by destruct c as [[] [] [] [] [] [] [] []]. Qed.

Lemma is_cased_to_lower (c : ascii) : is_cased (to_lower c) = is_cased c.
Proof. by destruct c as [[] [] [] [] [] [] [] []]. Qed.

Lemma is_cased_to_upper (c : ascii) : is_cased (to_upper c) = is_cased c.
Proof. by destruct c as [[] [] [] [] [] [] [] []]. Qed.

Lemma lower_title_from (previous : bool) (s : string) :
  lower (title_from previous s) = lower s.
Proof.
  revert previous. induction s as [|c s IH]; intros previous; [done|].
  simpl. rewrite IH. by destruct previous; rewrite ?to_lower_idem, ?to_lower_to_upper.
Qed.

Lemma title_from_idem (previous : bool) (s : string) :
  title_from previous (title_from previous s) = title_from previous s.
Proof.
  revert previous. induction s as [|c s IH]; intros previous; [done|].
  simpl. destruct previous.
  - by rewrite to_lower_idem, is_cased_to_lower, IH.
  - by rewrite to_upper_idem, is_cased_to_upper, IH.
Qed.

Lemma length_title_from (previous : bool) (s : string) :
  String.length (title_from previous s) = String.length s.
Proof.
  revert previous. induction s as [|c s IH]; intros previous; [done|].
  simpl. by rewrite IH.
Qed.

Lemma length_app (s t : string) :
  String.length (s +:+ t) = String.length s + String.length t.
Proof.
  induction s as [|c s IH]; [done|]. rewrite PyStrFacts.app_cons. simpl. by rewrite IH.
Qed.

Lemma blank_app (x y : string) : blank x → blank y → blank (x +:+ y).
Proof.
  induction 1 as [|w rest Hw _ IH]; [done|]. intros Hy.
  rewrite PyStrFacts.app_assoc. constructor; auto.
Qed.

Lemma rstrip_unfold (c : ascii) (s : string) :
  rstrip (String c s)
  = if whitespace_only (String c s) then EmptyString else String c (rstrip s).
Proof. reflexivity. Qed.

(** What [rstrip] drops is white space. *)
Lemma rstrip_split (s : string) : ∃ b, blank b ∧ s = rstrip s +:+ b.
Proof.
  induction s as [|c s (b & Hb & IH)].
  - exists EmptyString. split; [constructor|done].
  - rewrite rstrip_unfold. destruct (whitespace_only (String c s)) eqn:Hws.
    + exists (String c s). split; [by apply PyStrFacts.whitespace_only_iff|done].
    + exists b. split; [done|]. rewrite PyStrFacts.app_cons. by rewrite <- IH.
Qed.

Lemma rstrip_keeps_more (c : ascii) (s : string) :
  whitespace_only (String c s) = false →
  whitespace_only (String c (rstrip s)) = false.
Proof.
  intros Hws. destruct (whitespace_only (String c (rstrip s))) eqn:H; [|done].
  apply PyStrFacts.whitespace_only_iff in H.
  destruct (rstrip_split s) as (b & Hb & Hs).
  assert (blank (String c s)) as Hall.
  { rewrite Hs. change (blank (String c (rstrip s) +:+ b)). by apply blank_app. }
  apply PyStrFacts.whitespace_only_iff in Hall. congruence.
Qed.

Lemma rstrip_idem (s : string) : rstrip (rstrip s) = rstrip s.
Proof.
  induction s as [|c s IH]; [done|]. rewrite rstrip_unfold.
  destruct (whitespace_only (String c s)) eqn:Hws; [done|].
  by rewrite rstrip_unfold, (rstrip_keeps_more c s Hws), IH.
Qed.

Lemma begins_with_space_inv (s : string) :
  begins_with_space s = true → ∃ w rest, In w white_space ∧ s = w +:+ rest.
Proof.
  unfold begins_with_space. intros (w & Hw & Hs)%existsb_exists.
  apply PyStrFacts.startswith_inv in Hs as [rest ->]. eauto.
Qed.

Lemma endswith_inv (p s : string) : endswith p s = true → ∃ a, s = a +:+ p.
Proof.
  induction s as [|c s IH]; simpl; intros H.
  - rewrite orb_false_r in H. apply String.eqb_eq in H as ->. by exists EmptyString.
  - apply orb_true_iff in H as [H|H].
    + apply String.eqb_eq in H as ->. by exists EmptyString.
    + destruct (IH H) as [a ->]. by exists (String c a).
Qed.

Lemma rstrip_no_trailing (s a w : string) :
  In w white_space → rstrip s ≠ a +:+ w.
Proof.
  intros Hw. revert a. induction s as [|c s IH]; intros a H.
  - destruct a; [|done]. symmetry in H. by apply (PyStrFacts.table_not_empty w).
  - rewrite rstrip_unfold in H.
    destruct (whitespace_only (String c s)) eqn:Hws.
    + destruct a; [|done]. symmetry in H. by apply (PyStrFacts.table_not_empty w).
    + destruct a as [|a0 a].
      * rewrite PyStrFacts.app_nil_l in H.
        pose proof (rstrip_keeps_more c s Hws) as Hmore. rewrite H in Hmore.
        assert (blank w) as Hblank.
        { rewrite <- (PyStrFacts.app_nil_r w). constructor; [done|constructor]. }
        apply PyStrFacts.whitespace_only_iff in Hblank. congruence.
      * rewrite PyStrFacts.app_cons in H. injection H as _ H. by apply (IH a).
Qed.

(** The result of [strip] neither begins nor ends with a white-space
    character, and stripping it again changes nothing. *)
Lemma strip_begins (s : string) : begins_with_space (strip s) = false.
Proof.
  destruct (begins_with_space (strip s)) eqn:H; [|done].
  apply begins_with_space_inv in H as (w & rest & Hw & Hs). unfold strip in Hs.
  destruct (rstrip_split (lstrip s)) as (b & _ & Hl).
  rewrite Hs, PyStrFacts.app_assoc in Hl.
  pose proof (PyStrFacts.space_width_lstrip s) as Hnone. rewrite Hl in Hnone.
  by apply PyStrFacts.space_width_table in Hnone.
Qed.

Lemma strip_ends (s : string) : ends_with_space (strip s) = false.
Proof.
  destruct (ends_with_space (strip s)) eqn:H; [|done].
  unfold ends_with_space in H. apply existsb_exists in H as (w & Hw & Hs).
  apply endswith_inv in Hs as [a Hs]. by apply rstrip_no_trailing in Hs.
Qed.

Lemma strip_idem (s : string) : strip (strip s) = strip s.
Proof.
  unfold strip at 1. rewrite PyStrFacts.lstrip_no_space.
  - unfold strip. apply rstrip_idem.
  - destruct (space_width (strip s)) as [|n] eqn:Hwidth; [done|].
    destruct (PyStrFacts.space_width_split (strip s)) as (w & rest & Hw & Hs & _);
      [by rewrite Hwidth|].
    pose proof (strip_begins s) as Hbegins. unfold begins_with_space in Hbegins.
    assert (existsb (λ w, startswith w (strip s)) white_space = true) as Hyes.
    { apply existsb_exists. exists w. split; [done|].
      rewrite Hs. apply PyStrFacts.startswith_app. }
    congruence.
Qed.

End PyStrLaws.

(** ** Start-up and the profile files *)

(** X10: for a turn whose role is written in ASCII, the line the formatter
    renders is a label, a colon, a space and the content, where the label
    differs from the role in letter case only: the two are equal after
    lower-casing and have the same length. *)
Theorem format_turn_case_only (msg : Message) :
  let role := default "unknown" (msg !! "role") in
  let content := default EmptyString (msg !! "content") in
  PyStr.is_ascii role = true →
  ∃ label,
    format_turn msg = label +:+ ": " +:+ content
    ∧ PyStr.lower label = PyStr.lower role
    ∧ String.length label = String.length role.
Proof.
  intros role content _. exists (PyStr.title role). unfold format_turn.
  fold role content. unfold PyStr.title.
  by rewrite PyStrLaws.lower_title_from, PyStrLaws.length_title_from.
Qed.

Lemma format_turn_case_only_witness :
  ∃ label,
    format_turn (message_of "USER agent" "Hi") = label +:+ ": Hi"
    ∧ PyStr.lower label = "user agent".
Proof.
  destruct (format_turn_case_only (message_of "USER agent" "Hi") eq_refl)
    as (label & Hline & Hcase & _).
  exists label. split; [exact Hline | exact Hcase].
Defined.

(** X1: the clients are built exactly when both keys are set to a non-empty
    value; they then carry the two keys and the two fixed base URLs.  An
    unset or empty OpenAI key is reported first, whatever the Google key
    is; an unset or empty Google key is reported otherwise. *)
Theorem initialize_clients_credentials (environ : gmap string string) :
  ((∃ clients, _initialize_clients environ = Started clients)
   ↔ key_given (environ !! "OPENAI_API_KEY") = true
     ∧ key_given (environ !! "GOOGLE_API_KEY") = true)
  ∧ (∀ openai gemini,
       _initialize_clients environ = Started (openai, gemini) →
       environ !! "OPENAI_API_KEY" = Some (api_key openai)
       ∧ environ !! "GOOGLE_API_KEY" = Some (api_key gemini)
       ∧ base_url openai = "https://openrouter.ai/api/v1"
       ∧ base_url gemini = "https://generativelanguage.googleapis.com/v1beta/openai/")
  ∧ (key_given (environ !! "OPENAI_API_KEY") = false →
     _initialize_clients environ
     = Fatal (ValueError "OPENAI_API_KEY not found in environment variables"))
  ∧ (key_given (environ !! "OPENAI_API_KEY") = true →
     key_given (environ !! "GOOGLE_API_KEY") = false →
     _initialize_clients environ
     = Fatal (ValueError "GOOGLE_API_KEY not found in environment variables")).
Proof.
  unfold _initialize_clients, getenv.
  destruct (environ !! "OPENAI_API_KEY") as [[|c1 k1]|];
    destruct (environ !! "GOOGLE_API_KEY") as [[|c2 k2]|]; simpl;
    split_and!; try done; try (intros [? ?]; done); try (intros ? ? [= <- <-]; done);
    try (split; [intros [? ?]; done | intros [? ?]; done]).
  split; [done|]. intros _. by eexists.
Qed.

Lemma initialize_clients_credentials_witness :
  (∃ clients, _initialize_clients both_keys = Started clients)
  ∧ _initialize_clients google_key_empty
    = Fatal (ValueError "GOOGLE_API_KEY not found in environment variables").
Proof.
  destruct (initialize_clients_credentials both_keys) as ([_ Hstart] & _).
  destruct (initialize_clients_credentials google_key_empty) as (_ & _ & _ & Hgoogle).
  split; [apply Hstart; split; reflexivity | apply Hgoogle; reflexivity].
Defined.

Lemma extract_pages_readable (texts linkedin_parts : list string) :
  extract_pages (map ReadOk texts) linkedin_parts
  = ReadOk (linkedin_parts ++ List.filter PyStr.truthy texts).
Proof.
  revert linkedin_parts. induction texts as [|text texts IH]; intros parts; simpl.
  - by rewrite app_nil_r.
  - rewrite IH. destruct (PyStr.truthy text); [|done]. by rewrite <- app_assoc.
Qed.

Lemma extract_pages_raise (pages : list (FileRead string)) (linkedin_parts : list string) :
  (∃ e, In (ReadRaise e) pages) →
  ∃ e, extract_pages pages linkedin_parts = ReadRaise e.
Proof.
  revert linkedin_parts. induction pages as [|page pages IH]; intros parts [e Hin].
  - destruct Hin.
  - destruct page as [text|e']; simpl; [|by eexists].
    destruct Hin as [Heq|Hin]; [done|]. apply IH. by exists e.
Qed.

Lemma load_profile_block_readable (files : ProfileFiles) (self : PersonalChatbot)
    (texts : list string) (text : string) :
  linkedin_pdf files = Some (ReadOk (map ReadOk texts)) →
  summary_txt files = Some (ReadOk text) →
  load_profile_block files self
  = (set_summary_content (PyStr.strip text)
       (set_linkedin_content (PyStr.join nl (List.filter PyStr.truthy texts)) self),
     None).
Proof.
  intros Hpdf Htxt. unfold load_profile_block.
  by rewrite Hpdf, Htxt, extract_pages_readable.
Qed.

(** X2: when both files exist and can be read, the LinkedIn text is the texts
    of the pages that have text, in page order, with a line feed between
    them, and the summary is the content of the summary file without the
    white space around it; nothing else of the instance changes. *)
Theorem load_profile_data_readable (files : ProfileFiles) (self : PersonalChatbot)
    (texts : list string) (text : string) :
  linkedin_pdf files = Some (ReadOk (map ReadOk texts)) →
  summary_txt files = Some (ReadOk text) →
  _load_profile_data files self
  = {| name := name self;
       linkedin_content := PyStr.join nl (List.filter PyStr.truthy texts);
       summary_content := PyStr.strip text;
       system_prompt := system_prompt self;
       evaluator_system_prompt := evaluator_system_prompt self |}.
Proof.
  intros Hpdf Htxt. unfold _load_profile_data.
  by rewrite (load_profile_block_readable files self texts text Hpdf Htxt).
Qed.

Lemma load_profile_data_readable_witness :
  linkedin_content (_load_profile_data readable_files (blank_chatbot default_name))
  = "Experience" +:+ nl +:+ "Skills"
  ∧ summary_content (_load_profile_data readable_files (blank_chatbot default_name))
    = "Backend engineer in Dhaka.".
Proof.
  rewrite (load_profile_data_readable readable_files (blank_chatbot default_name)
             ["Experience"; EmptyString; "Skills"]
             (utf8 [194; 160] +:+ " Backend engineer in Dhaka." +:+ wide_blank));
    [|reflexivity..].
  split; reflexivity.
Defined.

(** X3: a PDF that exists but cannot be read, be it that the reader or the
    text extraction of one page raises, leaves the instance as it was: the
    LinkedIn text is not set, and the summary file is not read at all, even
    when it is in order. *)
Theorem load_profile_data_pdf_failure (files : ProfileFiles) (self : PersonalChatbot) :
  (∃ e, linkedin_pdf files = Some (ReadRaise e))
  ∨ (∃ pages e, linkedin_pdf files = Some (ReadOk pages) ∧ In (ReadRaise e) pages) →
  _load_profile_data files self = self.
Proof.
  unfold _load_profile_data, load_profile_block.
  intros [[e ->]|(pages & e & -> & Hin)]; [done|].
  destruct (extract_pages_raise pages [] (ex_intro _ e Hin)) as [e' ->]. done.
Qed.

Lemma load_profile_data_pdf_failure_witness :
  summary_txt broken_pdf = Some (ReadOk "Backend engineer in Dhaka.")
  ∧ _load_profile_data broken_pdf (blank_chatbot default_name)
    = blank_chatbot default_name.
Proof.
  split; [reflexivity|].
  apply load_profile_data_pdf_failure. right.
  exists [ReadOk "Experience"; ReadRaise (PdfReadError "bad page")],
    (PdfReadError "bad page").
  split; [reflexivity|]. right. left. reflexivity.
Defined.

(** X4: when the summary file exists but reading it raises, the LinkedIn text
    loaded before is kept and the summary stays as it was. *)
Theorem load_profile_data_summary_failure (files : ProfileFiles) (self : PersonalChatbot)
    (texts : list string) (e : FileException) :
  linkedin_pdf files = Some (ReadOk (map ReadOk texts)) →
  summary_txt files = Some (ReadRaise e) →
  _load_profile_data files self
  = set_linkedin_content (PyStr.join nl (List.filter PyStr.truthy texts)) self
  ∧ summary_content (_load_profile_data files self) = summary_content self.
Proof.
  intros Hpdf Htxt. unfold _load_profile_data, load_profile_block.
  by rewrite Hpdf, Htxt, extract_pages_readable.
Qed.

Lemma load_profile_data_summary_failure_witness :
  linkedin_content (_load_profile_data broken_summary (blank_chatbot default_name))
  = "Experience" +:+ nl +:+ "Skills"
  ∧ summary_content (_load_profile_data broken_summary (blank_chatbot default_name))
    = EmptyString.
Proof.
  destruct (load_profile_data_summary_failure broken_summary (blank_chatbot default_name)
              ["Experience"; "Skills"] (UnicodeDecodeError "utf-8")) as [Hload Hsummary];
    [reflexivity..|].
  rewrite Hsummary, Hload. split; reflexivity.
Defined.

Lemma load_profile_data_keeps (files : ProfileFiles) (self : PersonalChatbot) :
  name (_load_profile_data files self) = name self
  ∧ system_prompt (_load_profile_data files self) = system_prompt self
  ∧ evaluator_system_prompt (_load_profile_data files self)
    = evaluator_system_prompt self.
Proof.
  unfold _load_profile_data, load_profile_block.
  destruct (linkedin_pdf files) as [[pages|e]|]; [destruct (extract_pages pages [])| |];
    destruct (summary_txt files) as [[text|e']|]; done.
Qed.

Lemma create_prompts_new_chatbot (self : PersonalChatbot) :
  _create_prompts self
  = new_chatbot (name self) (linkedin_content self) (summary_content self).
Proof. reflexivity. Qed.

Lemma contains_empty (s : string) : PyStr.contains EmptyString s = true.
Proof. by apply PyStrFacts.startswith_contains. Qed.

(** X5: the summary that [_load_profile_data] leaves in an instance that had
    none neither begins nor ends with a white-space character, whichever of
    the white-space characters of Unicode, and is left alone by [strip]. *)
Theorem load_profile_data_summary_stripped (files : ProfileFiles) (self : PersonalChatbot) :
  summary_content self = EmptyString →
  let summary := summary_content (_load_profile_data files self) in
  PyStr.strip summary = summary
  ∧ begins_with_space summary = false
  ∧ ends_with_space summary = false.
Proof.
  intros Hnone summary.
  assert (PyStr.strip summary = summary) as Hfixed.
  { subst summary. unfold _load_profile_data, load_profile_block.
    destruct (linkedin_pdf files) as [[pages|e]|]; [destruct (extract_pages pages [])| |];
      destruct (summary_txt files) as [[text|e']|]; simpl;
      rewrite ?Hnone; auto using PyStrLaws.strip_idem. }
  split_and!; [done|..]; rewrite <- Hfixed.
  - apply PyStrLaws.strip_begins.
  - apply PyStrLaws.strip_ends.
Qed.

Lemma load_profile_data_summary_stripped_witness :
  summary_content (_load_profile_data readable_files (blank_chatbot default_name))
  = "Backend engineer in Dhaka."
  ∧ ends_with_space
      (summary_content (_load_profile_data readable_files (blank_chatbot default_name)))
    = false.
Proof.
  split; [reflexivity|].
  apply (load_profile_data_summary_stripped readable_files (blank_chatbot default_name)).
  reflexivity.
Defined.

(** X6: construction fails exactly when the clients cannot be built, with the
    same exception; the profile files never make it fail.  Once the clients
    are built, the instance carries them, the given name, and the two
    prompts built from whatever [_load_profile_data] could load. *)
Theorem init_outcome (environ : gmap string string) (files : ProfileFiles)
    (name : string) :
  (∀ e, __init__ environ files name = Fatal e ↔ _initialize_clients environ = Fatal e)
  ∧ (∀ openai gemini,
       _initialize_clients environ = Started (openai, gemini) →
       let loaded := _load_profile_data files (blank_chatbot name) in
       __init__ environ files name
       = Started {| openai_client := openai;
                    gemini_client := gemini;
                    bot := new_chatbot name (linkedin_content loaded)
                             (summary_content loaded) |}).
Proof.
  unfold __init__. split.
  - intros e. destruct (_initialize_clients environ) as [[openai gemini]|e']; simpl.
    + split; intros H; discriminate H.
    + split; intros [= ->]; reflexivity.
  - intros openai gemini ->. simpl. rewrite create_prompts_new_chatbot.
    by rewrite (proj1 (load_profile_data_keeps files (blank_chatbot name))).
Qed.

Lemma init_outcome_witness :
  __init__ google_key_empty readable_files default_name
  = Fatal (ValueError "GOOGLE_API_KEY not found in environment variables")
  ∧ (∃ openai gemini,
       __init__ both_keys broken_pdf default_name
       = Started {| openai_client := openai; gemini_client := gemini;
                    bot := new_chatbot default_name EmptyString EmptyString |}).
Proof.
  split.
  - apply (init_outcome google_key_empty readable_files default_name). reflexivity.
  - eexists _, _.
    rewrite (proj2 (init_outcome both_keys broken_pdf default_name) _ _ eq_refl).
    reflexivity.
Defined.

Lemma filter_truthy_textless (texts : list string) :
  forallb (fun t => negb (PyStr.truthy t)) texts = true →
  List.filter PyStr.truthy texts = [].
Proof.
  induction texts as [|t texts IH]; [done|]. simpl.
  intros [Ht Hrest]%andb_true_iff. apply negb_true_iff in Ht. rewrite Ht. auto.
Qed.

(** X7: files without text count as absent files: when no page of the PDF has
    text and the summary file holds white space only, construction gives
    the same result as with no profile files at all, so both prompts are
    the framing and the closing instruction alone. *)
Theorem init_textless_files (environ : gmap string string) (files : ProfileFiles)
    (name : string) (texts : list string) (text : string) :
  linkedin_pdf files = Some (ReadOk (map ReadOk texts)) →
  forallb (fun t => negb (PyStr.truthy t)) texts = true →
  summary_txt files = Some (ReadOk text) →
  blank text →
  __init__ environ files name
  = __init__ environ {| linkedin_pdf := None; summary_txt := None |} name
  ∧ _create_prompts (_load_profile_data files (blank_chatbot name))
    = new_chatbot name EmptyString EmptyString.
Proof.
  intros Hpdf Hempty Htxt Hblank.
  assert (_load_profile_data files (blank_chatbot name) = blank_chatbot name) as Hload.
  { unfold _load_profile_data.
    rewrite (load_profile_block_readable files _ texts text Hpdf Htxt).
    rewrite (proj2 (PyStrFacts.strip_nil_iff text) Hblank).
    by rewrite (filter_truthy_textless texts Hempty). }
  split; [|by rewrite Hload].
  unfold __init__. by rewrite Hload.
Qed.

Lemma init_textless_files_witness :
  __init__ both_keys textless_files default_name
  = __init__ both_keys {| linkedin_pdf := None; summary_txt := None |} default_name.
Proof.
  apply (init_textless_files both_keys textless_files default_name
           [EmptyString; EmptyString] wide_blank); try reflexivity.
  by apply PyStrFacts.whitespace_only_iff.
Defined.

(** X8: both prompts quote the persona name and the two profile texts as they
    are, each text under its heading when it is not empty, and in both
    prompts the summary section comes right before the LinkedIn section. *)
Theorem create_prompts_quote_profile (name linkedin summary : string) :
  let self := new_chatbot name linkedin summary in
  PyStr.contains name (system_prompt self) = true
  ∧ PyStr.contains name (evaluator_system_prompt self) = true
  ∧ (summary ≠ EmptyString →
     PyStr.contains ("## Summary:" +:+ nl +:+ summary) (system_prompt self) = true
     ∧ PyStr.contains ("## Summary:" +:+ nl +:+ summary) (evaluator_system_prompt self)
       = true)
  ∧ (linkedin ≠ EmptyString →
     PyStr.contains ("## LinkedIn Profile:" +:+ nl +:+ linkedin) (system_prompt self) = true
     ∧ PyStr.contains ("## LinkedIn Profile:" +:+ nl +:+ linkedin)
         (evaluator_system_prompt self) = true)
  ∧ (summary ≠ EmptyString → linkedin ≠ EmptyString →
     PyStr.contains
       ("## Summary:" +:+ nl +:+ summary +:+ nl +:+ nl
        +:+ "## LinkedIn Profile:" +:+ nl +:+ linkedin)
       (system_prompt self) = true
     ∧ PyStr.contains
         ("## Summary:" +:+ nl +:+ summary +:+ nl +:+ nl
          +:+ "## LinkedIn Profile:" +:+ nl +:+ linkedin)
         (evaluator_system_prompt self) = true).
Proof.
  intros self. subst self.
  rewrite create_prompts_assistant, create_prompts_evaluator.
  unfold assistant_prompt, evaluator_prompt. split_and!.
  - apply PyStrFacts.contains_spec. exists "You are acting as ". eexists.
    unfold assistant_framing. rewrite !PyStrFacts.app_assoc. reflexivity.
  - apply PyStrFacts.contains_spec.
    exists ("You are an evaluator that decides whether a response to a question is acceptable quality. "
            +:+ "You are provided with a conversation between a User and an Agent. Your task is to decide whether the Agent's latest response is acceptable. "
            +:+ "The Agent is playing the role of ").
    eexists. unfold evaluator_framing. rewrite !PyStrFacts.app_assoc. reflexivity.
  - intros Hs. destruct summary as [|c s]; [done|].
    cbv [presence optional_section]. split; apply PyStrFacts.contains_spec.
    + exists (assistant_framing name +:+ nl +:+ nl). eexists.
      rewrite !PyStrFacts.app_assoc. reflexivity.
    + exists (evaluator_framing name +:+ nl +:+ nl). eexists.
      rewrite !PyStrFacts.app_assoc. reflexivity.
  - intros Hl. destruct linkedin as [|c l]; [done|].
    cbv [presence optional_section]. split; apply PyStrFacts.contains_spec.
    + exists (assistant_framing name
              +:+ optional_section "Summary" (presence summary) +:+ nl +:+ nl).
      eexists. rewrite !PyStrFacts.app_assoc. reflexivity.
    + exists (evaluator_framing name
              +:+ optional_section "Summary" (presence summary) +:+ nl +:+ nl).
      eexists. rewrite !PyStrFacts.app_assoc. reflexivity.
  - intros Hs Hl. destruct summary as [|c s]; [done|].
    destruct linkedin as [|c' l]; [done|].
    cbv [presence optional_section]. split; apply PyStrFacts.contains_spec.
    + exists (assistant_framing name +:+ nl +:+ nl). eexists.
      rewrite !PyStrFacts.app_assoc. reflexivity.
    + exists (evaluator_framing name +:+ nl +:+ nl). eexists.
      rewrite !PyStrFacts.app_assoc. reflexivity.
Qed.

Lemma create_prompts_quote_profile_witness :
  let self := new_chatbot default_name "Experience" "Backend engineer in Dhaka." in
  PyStr.contains
    ("## Summary:" +:+ nl +:+ "Backend engineer in Dhaka." +:+ nl +:+ nl
     +:+ "## LinkedIn Profile:" +:+ nl +:+ "Experience")
    (evaluator_system_prompt self) = true
  ∧ PyStr.contains "## LinkedIn Profile:" (system_prompt morshed) = false.
Proof.
  split; [|reflexivity].
  apply (create_prompts_quote_profile default_name "Experience"
           "Backend engineer in Dhaka."); discriminate.
Defined.

(** X9: a turn is rendered from its [role] and [content] keys alone: other keys
    of the dict are ignored, a missing role is rendered as [Unknown] and a
    missing content as the empty text. *)
Theorem format_turn_keys (msg : Message) :
  format_turn msg
  = format_turn (message_of (default "unknown" (msg !! "role"))
                            (default EmptyString (msg !! "content")))
  ∧ (msg !! "role" = None →
     format_turn msg = "Unknown: " +:+ default EmptyString (msg !! "content"))
  ∧ (∀ key value, key ≠ "role" → key ≠ "content" →
     format_turn (<[key := value]> msg) = format_turn msg).
Proof.
  unfold format_turn, message_of. split_and!.
  - by rewrite lookup_insert_eq, lookup_insert_ne, lookup_singleton_eq.
  - by intros ->.
  - intros key value Hrole Hcontent. by rewrite !lookup_insert_ne.
Qed.

Lemma format_turn_keys_witness :
  format_turn (<[ "metadata" := "{}" ]> (message_of "assistant" "Hi"))
  = "Assistant: Hi"
  ∧ format_turn {[ "content" := "Hi" ]} = "Unknown: Hi".
Proof.
  destruct (format_turn_keys (message_of "assistant" "Hi")) as (_ & _ & Hother).
  destruct (format_turn_keys {[ "content" := "Hi" ]}) as (_ & Hmissing & _).
  split.
  - rewrite Hother; [reflexivity | discriminate | discriminate].
  - rewrite Hmissing; reflexivity.
Defined.

(** ** More on the turn function *)

Section TurnCalls.

Context {World : Type}.
Variable openai_create : GenRequest → World → Outcome (option string) * World.
Variable gemini_parse : EvalRequest → World → Outcome (option Evaluation) * World.

Local Abbreviation generate := (_generate_response World openai_create).
Local Abbreviation evaluate := (evaluate_response World gemini_parse).
Local Abbreviation chat' := (chat World openai_create gemini_parse).

(** A blank message ends the turn at once. *)
Lemma chat_blank_message_run (self : PersonalChatbot) (message : string)
    (history : list Message) (st : State World) :
  blank message →
  chat' self message history st = (Return (Some please_ask), st).
Proof.
  intros H%PyStrFacts.strip_nil_iff. unfold chat. by rewrite H.
Qed.

Lemma not_blank_strip (message : string) :
  ¬ blank message → PyStr.strip message ≠ EmptyString.
Proof. intros H Hs. by apply H, PyStrFacts.strip_nil_iff. Qed.

Lemma blank_dec (message : string) : blank message ∨ ¬ blank message.
Proof.
  destruct (PyStr.whitespace_only message) eqn:H.
  - left. by apply PyStrFacts.whitespace_only_iff.
  - right. intros Hb%PyStrFacts.whitespace_only_iff. congruence.
Qed.

(** A turn for a message that is not blank, in terms of the answers of the
    two endpoints. *)
Lemma chat_unfold (self : PersonalChatbot) (message : string) (history : list Message)
    (st : State World) :
  PyStr.strip message ≠ EmptyString →
  let first := generation_request message history
                 (system_to_use self message) default_model in
  let answer1 := openai_create first (world st) in
  let reply := reply_of_outcome (name self) (fst answer1) in
  let judged := evaluation_request self reply message history in
  let answer2 := gemini_parse judged (snd answer1) in
  let st2 := {| world := snd answer2;
                calls := calls st ++ [GenCall first; EvalCall judged] |} in
  chat' self message history st
  = match verdict_of_outcome (fst answer2) with
    | None => (Return (Some (apology (name self))), st2)
    | Some verdict =>
        if is_acceptable verdict then (Return reply, st2)
        else
          let second := generation_request message history
                          (updated_system_prompt self reply (feedback verdict))
                          default_model in
          let answer3 := openai_create second (snd answer2) in
          (Return (reply_of_outcome (name self) (fst answer3)),
           {| world := snd answer3;
              calls := calls st ++ [GenCall first; EvalCall judged; GenCall second] |})
    end.
Proof.
  intros Hm first answer1 reply judged answer2 st2.
  pose proof (generate_run openai_create self message history
                (system_to_use self message) default_model st) as Hgen.
  pose proof (evaluate_run gemini_parse self reply message history
                {| world := snd answer1; calls := calls st ++ [GenCall first] |})
    as Heval.
  simpl in Hgen, Heval. rewrite <- app_assoc in Heval. simpl in Heval.
  rewrite (chat_try _ _ _ _ _ _ Hm). unfold try_except.
  rewrite (turn_run _ _ _ _ _ _ _ _ _ _ Hgen Heval).
  fold judged answer2 st2. destruct (verdict_of_outcome _) as [verdict|]; [|done].
  destruct (is_acceptable verdict); [done|].
  unfold regenerate_response. rewrite generate_run. simpl.
  by rewrite <- app_assoc.
Qed.


(** X12: the evaluator wrapper makes exactly one request and never raises.  The
    request has two messages: the evaluator prompt as the system message,
    and a user message that quotes the transcript of the history, the
    message of the user and the reply (the word [None] for a reply that is
    [None]).  The wrapper returns what the
    endpoint parsed, which may be no verdict at all, or the fail-open
    verdict when the endpoint raises. *)
Theorem evaluate_response_contract (self : PersonalChatbot) (reply : option string) (message : string)
    (history : list Message) (st : State World) :
  let request := evaluation_request self reply message history in
  ∃ evaluation st' user_prompt,
    evaluate self reply message history st = (Return evaluation, st')
    ∧ calls st' = calls st ++ [EvalCall request]
    ∧ world st' = snd (gemini_parse request (world st))
    ∧ eval_model request = "gemini-2.5-flash"
    ∧ eval_messages request
      = [message_of "system" (evaluator_system_prompt self);
         message_of "user" user_prompt]
    ∧ PyStr.contains (_format_conversation_history history) user_prompt = true
    ∧ PyStr.contains message user_prompt = true
    ∧ PyStr.contains (format_value reply) user_prompt = true
    ∧ (∀ parsed, fst (gemini_parse request (world st)) = Return parsed →
         evaluation = parsed)
    ∧ (∀ e, fst (gemini_parse request (world st)) = Raise e →
         evaluation = Some {| is_acceptable := true;
                              feedback := "Evaluation service unavailable" |}).
Proof.
  intros request. eexists _, _, _. split; [apply evaluate_run|]. simpl.
  fold request. split_and!; try done.
  - apply PyStrFacts.contains_spec.
    exists ("Here's the conversation between the User and the Agent:" +:+ nl +:+ nl).
    eexists. unfold evaluation_user_prompt. rewrite !PyStrFacts.app_assoc. reflexivity.
  - apply PyStrFacts.contains_spec.
    exists ("Here's the conversation between the User and the Agent:" +:+ nl +:+ nl
            +:+ _format_conversation_history history +:+ nl +:+ nl
            +:+ "Here's the latest message from the User:" +:+ nl +:+ nl).
    eexists. unfold evaluation_user_prompt. rewrite !PyStrFacts.app_assoc. reflexivity.
  - apply PyStrFacts.contains_spec.
    exists ("Here's the conversation between the User and the Agent:" +:+ nl +:+ nl
            +:+ _format_conversation_history history +:+ nl +:+ nl
            +:+ "Here's the latest message from the User:" +:+ nl +:+ nl
            +:+ message +:+ nl +:+ nl
            +:+ "Here's the latest response from the Agent:" +:+ nl +:+ nl).
    eexists. unfold evaluation_user_prompt. rewrite !PyStrFacts.app_assoc. reflexivity.
  - by intros parsed ->.
  - by intros e ->.
Qed.

(** X13: a turn extends the call log and makes no call, two calls or three:
    none exactly when the message is empty or white space only, otherwise
    one generator call and one evaluator call, followed by at most one more
    generator call. *)
Theorem chat_call_bound (self : PersonalChatbot) (message : string)
    (history : list Message) (st : State World) :
  ∃ new,
    calls (snd (chat' self message history st)) = calls st ++ new
    ∧ (new = [] ↔ blank message)
    ∧ (new = []
       ∨ (∃ first judged, new = [GenCall first; EvalCall judged])
       ∨ (∃ first judged second,
            new = [GenCall first; EvalCall judged; GenCall second])).
Proof.
  destruct (blank_dec message) as [Hblank|Hblank].
  - exists []. rewrite (chat_blank_message_run self message history st Hblank).
    simpl. rewrite app_nil_r. naive_solver.
  - rewrite (chat_unfold _ _ _ _ (not_blank_strip _ Hblank)).
    destruct (verdict_of_outcome _) as [verdict|];
      [destruct (is_acceptable verdict)|]; simpl; eexists;
      (split; [reflexivity|]); (split; [split; [intros; discriminate|done]|]);
      first [by right; left; eexists _, _ | by right; right; eexists _, _, _].
Qed.

(** X14: every generator request of a turn uses the default model and the fixed
    sampling parameters, and its messages are a system prompt that extends
    the assistant prompt, the history as it was handed in, and last the
    message of the user as it was handed in. *)
Theorem chat_generator_requests (self : PersonalChatbot) (message : string)
    (history : list Message) (st : State World) (new : list Call)
    (request : GenRequest) :
  calls (snd (chat' self message history st)) = calls st ++ new →
  In (GenCall request) new →
  gen_model request = "tngtech/deepseek-r1t2-chimera:free"
  ∧ gen_temperature request = 7 # 10
  ∧ gen_max_tokens request = 1000
  ∧ ∃ prompt,
      gen_messages request
      = message_of "system" prompt :: history ++ [message_of "user" message]
      ∧ PyStr.startswith (system_prompt self) prompt = true.
Proof.
  destruct (blank_dec message) as [Hblank|Hblank].
  - rewrite (chat_blank_message_run self message history st Hblank). simpl.
    rewrite <- (app_nil_r (calls st)) at 1. by intros <-%app_inv_head.
  - rewrite (chat_unfold _ _ _ _ (not_blank_strip _ Hblank)).
    assert (PyStr.startswith (system_prompt self) (system_to_use self message) = true)
      as Hfirst.
    { unfold system_to_use. destruct (PyStr.contains _ _).
      - apply PyStrFacts.startswith_app.
      - rewrite <- (PyStrFacts.app_nil_r (system_prompt self)) at 2.
        apply PyStrFacts.startswith_app. }
    destruct (verdict_of_outcome _) as [verdict|];
      [destruct (is_acceptable verdict)|]; simpl;
      intros <-%app_inv_head Hin; simpl in Hin;
      repeat (destruct Hin as [[= <-]|Hin] || destruct Hin as [[=]|Hin]);
      try destruct Hin; simpl; split_and!; try done; eexists; (split; [reflexivity|]);
      unfold updated_system_prompt; auto using PyStrFacts.startswith_app.
Qed.


(** X16: what a turn returns is the fixed request for a question (for a
    blank message, with no call made), or the canned apology, or the
    content that the generation endpoint answered with, in the world it
    was asked in, to a request of this very turn: the first request when
    two calls were made, the regeneration request when three were made.
    That content is a text or [None]. *)
Theorem chat_output_provenance (self : PersonalChatbot) (message : string)
    (history : list Message) (st : State World) :
  ∃ output st' new,
    chat' self message history st = (Return output, st')
    ∧ calls st' = calls st ++ new
    ∧ ((output = Some please_ask ∧ new = [] ∧ st' = st)
       ∨ output = Some (apology (name self))
       ∨ (∃ first judged,
            new = [GenCall first; EvalCall judged]
            ∧ fst (openai_create first (world st)) = Return output)
       ∨ (∃ first judged second w,
            new = [GenCall first; EvalCall judged; GenCall second]
            ∧ w = snd (gemini_parse judged (snd (openai_create first (world st))))
            ∧ openai_create second w = (Return output, world st'))).
Proof.
  destruct (blank_dec message) as [Hblank|Hblank].
  - rewrite (chat_blank_message_run self message history st Hblank).
    exists (Some please_ask), st, []. rewrite app_nil_r.
    split_and!; [done | done | by left].
  - rewrite (chat_unfold _ _ _ _ (not_blank_strip _ Hblank)).
    set (first := generation_request message history _ default_model).
    set (answer1 := openai_create first (world st)).
    set (reply := reply_of_outcome (name self) (fst answer1)).
    set (judged := evaluation_request self reply message history).
    set (answer2 := gemini_parse judged (snd answer1)).
    destruct (verdict_of_outcome (fst answer2)) as [verdict|];
      [destruct (is_acceptable verdict)|].
    + eexists _, _, _. split; [reflexivity|]. split; [reflexivity|].
      subst reply. destruct (fst answer1) as [content|e] eqn:H1; simpl;
        [|by right; left].
      right. right. left. by exists first, judged.
    + set (second := generation_request message history _ default_model).
      destruct (openai_create second (snd answer2)) as [[content|e] w3] eqn:H3.
      * eexists _, _, _. split; [reflexivity|]. split; [reflexivity|].
        right. right. right. exists first, judged, second, (snd answer2).
        simpl. by rewrite H3.
      * eexists _, _, _. split; [reflexivity|]. split; [reflexivity|].
        right. left. simpl. by rewrite H3.
    + eexists _, _, _. split; [reflexivity|]. split; [reflexivity|].
      by right; left.
Qed.

End TurnCalls.

(** ** More turns in scripted worlds *)


Lemma evaluate_response_contract_witness :
  fst (evaluate_response Script scripted_parse morshed (Some "I build backend services.")
         "What do you do?" two_turns (fresh evaluator_down))
  = Return (Some evaluation_unavailable).
Proof.
  destruct (evaluate_response_contract scripted_parse morshed
              (Some "I build backend services.") "What do you do?" two_turns
              (fresh evaluator_down))
    as (evaluation & st' & prompt & Hrun & _ & _ & _ & _ & _ & _ & _ & _ & Hfail).
  rewrite Hrun. simpl. f_equal. apply (Hfail connection_refused). reflexivity.
Defined.

Lemma chat_call_bound_witness :
  calls (snd (scripted_chat morshed wide_blank two_turns accepting)) = [].
Proof.
  destruct (chat_call_bound scripted_create scripted_parse morshed
              wide_blank two_turns (fresh accepting))
    as (new & Hcalls & [_ Hblank] & _).
  unfold scripted_chat. fold (fresh accepting).
  rewrite Hcalls, Hblank; [reflexivity|].
  by apply PyStrFacts.whitespace_only_iff.
Defined.

Lemma chat_generator_requests_witness :
  gen_model (generation_request "What do you do?" two_turns
               (updated_system_prompt morshed (Some "Stuff.") "Too vague.") default_model)
  = "tngtech/deepseek-r1t2-chimera:free".
Proof.
  eapply (chat_generator_requests scripted_create scripted_parse morshed
            "What do you do?" two_turns (fresh rejecting)
            [GenCall (generation_request "What do you do?" two_turns
                        (system_to_use morshed "What do you do?") default_model);
             EvalCall (evaluation_request morshed (Some "Stuff.") "What do you do?" two_turns);
             GenCall (generation_request "What do you do?" two_turns
                        (updated_system_prompt morshed (Some "Stuff.") "Too vague.")
                        default_model)]).
  - reflexivity.
  - right. right. left. reflexivity.
Defined.


(** A completion without content: the evaluator is asked about the word
    [None], and [chat] returns [None] when the verdict is acceptable. *)
Example chat_no_content :
  fst (scripted_chat morshed "What do you do?" two_turns no_content) = Return None
  ∧ PyStr.contains ("Here's the latest response from the Agent:" +:+ nl +:+ nl +:+ "None")
      (evaluation_user_prompt (_format_conversation_history two_turns)
         "What do you do?" (format_value None)) = true.
Proof. split; reflexivity. Qed.
